(** * PyBox: the serial renamer (ReFileSerial/ReSerial.py) and the
      timestamp editor (ReFileTime/ReTime.py)

    A shallow embedding of the two scripts and the proofs of their
    specified properties.

    Python [str] values are sequences of Unicode code points, so a string
    is a [list N] here; the separator ['、'] is the single code point
    12289.  Python [int] is unbounded and is [Z].  Dictionaries are stdpp
    [gmap]s. *)

From Stdlib Require Import ZArith NArith Lia String Ascii.
From stdpp Require Import base tactics option list sorting gmap pretty.

Local Open Scope Z_scope.
Set Warnings "-clear-no-such-hyp".

(** ** Python strings *)
Module PyStr.

Definition char := N.
Definition str := list N.

(** An ASCII literal as a Python string. *)
Definition lit (s : string) : str := N_of_ascii <$> list_ascii_of_string s.

Definition dot : char := 46%N.
Definition newline : char := 10%N.

(** [f"{k}"] for a non-negative integer. *)
Definition str_of_N (k : N) : str := lit (pretty k).

Fixpoint lstrip (sp : char -> bool) (s : str) : str :=
  match s with
  | c :: s' => if sp c then lstrip sp s' else s
  | [] => []
  end.

(** [s.strip()] for the whitespace predicate [sp]. *)
Definition strip (sp : char -> bool) (s : str) : str :=
  reverse (lstrip sp (reverse (lstrip sp s))).

Fixpoint rfind_aux (P : char -> bool) (s : str) (i last : Z) : Z :=
  match s with
  | [] => last
  | c :: s' => rfind_aux P s' (i + 1) (if P c then i else last)
  end.

(** [s.rfind(c)] for the characters selected by [P]; [-1] when there is
    none. *)
Definition rfind (P : char -> bool) (s : str) : Z := rfind_aux P s 0 (-1).

(** [s[i:j]] for [0 <= i]. *)
Definition slice (s : str) (i j : Z) : str :=
  take (Z.to_nat j - Z.to_nat i)%nat (drop (Z.to_nat i) s).

(** [l1 ++ x ++ l2]: [x] occurs in the string. *)
Definition occurs_in (x s : str) : Prop := exists l1 l2, s = l1 ++ x ++ l2.

End PyStr.
Export PyStr.

(** ** The Python runtime the scripts run on

    The Unicode tables behind [\d], [int()], [str.isdigit], [str.strip] and
    [re.IGNORECASE], and the flavour of [os.path], belong to the
    interpreter, not to the repository: they are an interface here. *)
Inductive os_flavour := NT | POSIX.

Class PyRuntime := {
  (** the decimal-digit value of a character: what [\d] accepts and what
      [int()] reads *)
  decimal_value : char -> option Z;
  (** [c.isdigit()] *)
  isdigit_char : char -> bool;
  (** [c.isspace()] *)
  isspace_char : char -> bool;
  (** a member [p] of a character set matches the subject character [c]
      under [re.IGNORECASE] *)
  ignorecase_eq : char -> char -> bool;
  (** which [os.path] is loaded *)
  os_path : os_flavour;
  decimal_value_range : forall c v, decimal_value c = Some v -> 0 <= v < 10;
  decimal_isdigit : forall c v, decimal_value c = Some v -> isdigit_char c = true
}.

(** The ASCII part of the tables; [isspace_char] is Python's full list. *)
Definition ascii_decimal (c : char) : option Z :=
  if ((48 <=? c) && (c <=? 57))%N then Some (Z.of_N c - 48) else None.

Definition ascii_lower (c : char) : char :=
  if ((65 <=? c) && (c <=? 90))%N then (c + 32)%N else c.

Definition py_isspace (c : char) : bool :=
  (((9 <=? c) && (c <=? 13)) || ((28 <=? c) && (c <=? 32)) || (c =? 133)
   || (c =? 160) || (c =? 5760) || ((8192 <=? c) && (c <=? 8202))
   || (c =? 8232) || (c =? 8233) || (c =? 8239) || (c =? 8287)
   || (c =? 12288))%N.

(** The runtime with the ASCII tables. *)
Definition ascii_runtime (fl : os_flavour) : PyRuntime.
Proof.
  refine {| decimal_value := ascii_decimal;
            isdigit_char c := bool_decide (is_Some (ascii_decimal c));
            isspace_char := py_isspace;
            ignorecase_eq p c := (ascii_lower p =? ascii_lower c)%N;
            os_path := fl |}.
  - intros c v. unfold ascii_decimal.
    destruct (_ && _)%N eqn:E; [|discriminate].
    intros [= <-]. apply andb_prop in E as [E1 E2].
    apply N.leb_le in E1, E2. lia.
  - intros c v ->. by apply bool_decide_eq_true.
Defined.

(** A runtime is conformant when its tables are the ASCII ones on ASCII
    characters, as those of every Python are. *)
Definition ascii_str (s : str) : Prop := Forall (fun c => (c < 128)%N) s.

Definition ascii_conformant (rt : PyRuntime) : Prop :=
  forall c, (c < 128)%N ->
    decimal_value c = ascii_decimal c
    /\ isspace_char c = py_isspace c
    /\ forall p, (p < 128)%N -> ignorecase_eq p c = (ascii_lower p =? ascii_lower c)%N.

(** ** ReFileSerial/ReSerial.py *)
Module ReSerial.

(** The configurable constants at the top of the script. *)
Record config := {
  SERIAL_PAD : nat;
  CONNECTOR : str;
  PREFIX_CHAR : str;
  BASE_SERIAL : Z;
  SEPARATORS : list char
}.

(** The constants as the script sets them. *)
Definition source_config : config := {|
  SERIAL_PAD := 3;
  CONNECTOR := lit ". ";
  PREFIX_CHAR := lit "No.";
  BASE_SERIAL := 0;
  SEPARATORS := [46%N; 12289%N; 32%N]
|}.

Inductive exn :=
| re_error          (** the pattern does not compile *)
| ValueError        (** [int()] on a string that is not a number, or on
                        more digits than the interpreter converts *)
| KeyError (key : str + Z)   (** a missing field name or a missing serial *)
| FileNotFoundError (p : str)
| FileExistsError (p : str)
| IsADirectoryError (p : str)
| PermissionError (p : str)
| OSError (p : str)  (** the platform does not take [p] as a file name: it
                         is too long, cannot be encoded or holds a
                         character that no name may hold *).

Section classifier.
Context {rt : PyRuntime} (cfg : config).

Definition path_seps : list char :=
  match os_path with NT => [92%N; 47%N] | POSIX => [47%N] end.

Definition is_sep (c : char) : bool := bool_decide (c ∈ path_seps).
Definition is_dot (c : char) : bool := (c =? dot)%N.

(** [os.path.splitext]: the extension starts at the last dot of the
    last path component, unless only dots precede it there. *)
Definition splitext (p : str) : str * str :=
  let sepIndex := rfind is_sep p in
  let dotIndex := rfind is_dot p in
  if (sepIndex <? dotIndex)
     && existsb (fun c => negb (is_dot c)) (slice p (sepIndex + 1) dotIndex)
  then (take (Z.to_nat dotIndex) p, drop (Z.to_nat dotIndex) p)
  else (p, []).

(** The character set [[...]] built from [SEPARATORS]: every separator
    is escaped, so each stands for itself; [re.IGNORECASE] is on. *)
Definition in_separators (c : char) : bool :=
  existsb (fun p => ignorecase_eq p c) (SEPARATORS cfg).

Definition is_decimal (c : char) : bool :=
  bool_decide (is_Some (decimal_value c)).

(** The last group and the end anchor: [.] stops at a newline, [$] holds
    at the end of the string and before a newline that ends it. *)
Fixpoint rest_then_end (s : str) : option str :=
  match s with
  | [] => Some []
  | c :: s' =>
      if (c =? newline)%N then
        match s' with [] => Some [] | _ => None end
      else (c ::.) <$> rest_then_end s'
  end.

(** The separator set under [+], then the last group: the greedy [+]
    takes one more separator first and gives it back when the rest
    fails. *)
Fixpoint separators_then (s : str) : option str :=
  match s with
  | c :: s' =>
      if in_separators c then
        match separators_then s' with
        | Some g2 => Some g2
        | None => rest_then_end s'
        end
      else None
  | [] => None
  end.

(** The whole pattern from the start of the string: the digits of
    [\d+] under the same greedy discipline; the result is
    [(group(1), group(2))]. *)
Fixpoint digits_then (s : str) : option (str * str) :=
  match s with
  | c :: s' =>
      if is_decimal c then
        match digits_then s' with
        | Some (g1, g2) => Some (c :: g1, g2)
        | None => (fun g2 => ([c], g2)) <$> separators_then s'
        end
      else None
  | [] => None
  end.

(** [re.match(pattern, name, re.IGNORECASE)]; with no separator the
    character set of the pattern opens with [[]] and never closes. *)
Definition re_match (name : str) : exn + option (str * str) :=
  match SEPARATORS cfg with
  | [] => inl re_error
  | _ => inr (digits_then name)
  end.

(** [s.isdigit()] *)
Definition isdigit (s : str) : bool :=
  match s with [] => false | _ => forallb isdigit_char s end.

(** The conversion of [int(s)] on a string of decimal digits; on any
    other string [ValueError] stands for whatever [int] does. *)
Definition int (s : str) : exn + Z :=
  match s with
  | [] => inl ValueError
  | _ =>
      from_option inr (inl ValueError)
        (foldl (fun acc c => a ← acc; v ← decimal_value c; Some (10 * a + v))
               (Some 0) s)
  end.

(** [sys.int_info.default_max_str_digits]: the interpreter (CPython 3.11
    and later) converts no string of more digits, leading zeros
    included, and raises [ValueError] instead. *)
Definition int_max_str_digits : nat := 4300.

(** [int(serial_str)] as line 42 runs it on the digits of the first
    group: the guard on their number, then the conversion. *)
Definition int_of_digits (s : str) : exn + Z :=
  if (int_max_str_digits <? length s)%nat then inl ValueError else int s.

(** The pattern as the documentation of [re] reads it: [name] is a
    non-empty run of decimal digits, a non-empty run of separators, then
    characters other than a newline up to the end of the string or up to
    a newline that ends it. *)
Definition rest_ok (g2 tail : str) : Prop :=
  Forall (fun c => c <> newline) g2 /\ (tail = [] \/ tail = [newline]).

Definition separators_split (s seps g2 tail : str) : Prop :=
  s = seps ++ g2 ++ tail /\ seps <> [] /\ Forall in_separators seps
  /\ rest_ok g2 tail.

Definition pattern_split (name g1 seps g2 tail : str) : Prop :=
  name = g1 ++ seps ++ g2 ++ tail /\ g1 <> [] /\ Forall is_decimal g1
  /\ seps <> [] /\ Forall in_separators seps /\ rest_ok g2 tail.


(** Among the ways to read [name] as the pattern, the one that a
    backtracking matcher with greedy quantifiers reports: the longest
    digits, and with them the longest separators. *)
Definition greedy_split (name g1 seps g2 tail : str) : Prop :=
  pattern_split name g1 seps g2 tail
  /\ forall g1' seps' g2' tail', pattern_split name g1' seps' g2' tail' ->
       (length g1' <= length g1)%nat
       /\ (length g1' = length g1 -> (length seps' <= length seps)%nat).

(** The number that a string of decimal digits writes. *)
Fixpoint decimal_number (s : str) : Z :=
  match s with
  | [] => 0
  | c :: s' =>
      default 0 (decimal_value c) * 10 ^ Z.of_nat (length s') + decimal_number s'
  end.

(** [r] is [s] without its leading and trailing whitespace, in the
    words of the documentation of [str.strip]: [s] is [r] between two
    runs of whitespace, and [r] neither begins nor ends with any. *)
Definition stripped (s r : str) : Prop :=
  exists pre post,
    s = pre ++ r ++ post
    /\ Forall (fun c => isspace_char c = true) pre
    /\ Forall (fun c => isspace_char c = true) post
    /\ forall x, head r = Some x \/ last r = Some x -> isspace_char x = false.

(** [e] is an extension of [p] behind [root], in the words of the
    documentation of [os.path.splitext]: [p] is [root], a dot and [e];
    [e] holds no further dot and no path separator; and the dot is not one
    of the leading dots of the last path component, that is, a character
    other than a dot precedes it there. *)
Definition has_extension (p root e : str) : Prop :=
  p = root ++ dot :: e
  /\ Forall (fun c => is_dot c = false /\ is_sep c = false) e
  /\ exists a x b,
       root = a ++ x :: b /\ is_dot x = false
       /\ Forall (fun c => is_sep c = false) (x :: b).

(** [(root, ext)] is [p] split at its extension; [ext] is empty when
    [p] has none. *)
Definition splits_extension (p root ext : str) : Prop :=
  (exists e, ext = dot :: e /\ has_extension p root e)
  \/ (ext = [] /\ root = p /\ forall root' e, ~ has_extension p root' e).

Definition seq_result : Type := bool * option Z * option str * str.

(** The body of the [try] block: [Some] is a [return] inside it, [None]
    falls out of the block. *)
Definition try_block (name ext : str) : exn + option seq_result :=
  match re_match name with
  | inl e => inl e
  | inr None => inr None
  | inr (Some (serial_str, g2)) =>
      if negb (isdigit serial_str) then inr (Some (false, None, None, ext))
      else
        match int_of_digits serial_str with
        | inl e => inl e
        | inr serial_num =>
            inr (Some (true, Some serial_num, Some (strip isspace_char g2), ext))
        end
  end.

(** [is_sequence_file(filename)]: the value returned and the exception
    the [except] branch printed, if any. *)
Definition is_sequence_file (filename : str) : seq_result * option exn :=
  let '(name_without_ext, ext) := splitext filename in
  match try_block name_without_ext ext with
  | inr (Some r) => (r, None)
  | inr None => ((false, None, None, ext), None)
  | inl e => ((false, None, None, ext), Some e)
  end.

End classifier.

(** *** The folder and the entries of a run *)

(** What a name of the folder is, as far as the calls of the script can
    tell: a file; a directory; a symbolic link whose target is missing; or
    a file that the platform does not let the script rename, because the
    script has no permission on it or on the folder, or because another
    program holds it open.  A link whose target exists counts as its
    target: [os.path.isdir] and [os.path.exists] follow it. *)
Inductive kind := RegularFile | Directory | BrokenLink | ProtectedFile.

#[export] Instance exn_eq_dec : EqDecision exn.
Proof. solve_decision. Defined.

#[export] Instance kind_eq_dec : EqDecision kind.
Proof. solve_decision. Defined.

(** The target folder: the names in it and what each one is.  Names are
    the keys, so [os.path.join(TARGET_FOLDER, name)] and
    [os.path.basename] are the identity here, and two names are the same
    entry exactly when they are equal: the case folding of Windows file
    systems and the trailing dots and spaces that Win32 drops are not
    modelled.  A name that is no file name ([is_file_name] below) is
    never a key of a real folder. *)
Abbreviation folder := (gmap str kind).

(** One dictionary of [sequence_files]; [final_serial] is the key that
    the remap phase adds. *)
Record file_info := {
  old_path : str;
  serial_num : Z;
  content : str;
  ext : str;
  final_serial : option Z
}.

Definition set_final_serial (f : file_info) (n : Z) : file_info :=
  {| old_path := old_path f; serial_num := serial_num f;
     content := content f; ext := ext f; final_serial := Some n |}.

(** What the script prints, line by line.  The success line shows
    [old_filename[:8]], the first eight characters of the old name. *)
Inductive event :=
| FolderMissing
| MatchError (filename : str) (e : exn)
| NoSequenceFiles
| Renamed (old_shown new : str)
| Failed (old : str) (e : exn)
| Summary (success failed : nat) (unique reversed final : list Z).

#[export] Instance event_eq_dec : EqDecision event.
Proof. solve_decision. Defined.

Section renamer.
Context {rt : PyRuntime} (cfg : config).

(** Step 2 of [main]: the loop over [os.listdir(TARGET_FOLDER)]. *)
Definition scan_step (fs : folder) (acc : list file_info * list event)
    (filename : str) : list file_info * list event :=
  match fs !! filename with
  | Some Directory => acc
  | _ =>
      let '(r, printed) := is_sequence_file cfg filename in
      let log := acc.2 ++ from_option (fun e => [MatchError filename e]) [] printed in
      match r with
      | (true, Some n, Some c, e) =>
          (acc.1 ++ [{| old_path := filename; serial_num := n; content := c;
                        ext := e; final_serial := None |}], log)
      | _ => (acc.1, log)
      end
  end.

Definition scan (fs : folder) (listing : list str) : list file_info * list event :=
  foldl (scan_step fs) ([], []) listing.

(** Step 4.1: [sorted(list(set(...)))]. *)
Definition unique_serials (files : list file_info) : list Z :=
  merge_sort Z.le (elements (list_to_set (serial_num <$> files) : gset Z)).

(** Step 4.2: [unique_serials[::-1]]. *)
Definition reversed_unique_serials (files : list file_info) : list Z :=
  reverse (unique_serials files).

(** Step 4.3: the loop over [zip(unique, reversed)] filling the map. *)
Definition build_map (U : list Z) : gmap Z Z :=
  foldl (fun m '(original, reversed_serial) =>
           <[original := BASE_SERIAL cfg + reversed_serial]> m)
        ∅ (zip U (reverse U)).

Definition serial_reverse_map (files : list file_info) : gmap Z Z :=
  build_map (unique_serials files).

(** Step 4.4: [file_info["final_serial"] = serial_reverse_map[...]];
    a missing key stops the script. *)
Fixpoint assign_final (m : gmap Z Z) (files : list file_info)
    : exn + list file_info :=
  match files with
  | [] => inr []
  | f :: fs =>
      match m !! serial_num f with
      | None => inl (KeyError (inr (serial_num f)))
      | Some n =>
          match assign_final m fs with
          | inl e => inl e
          | inr fs' => inr (set_final_serial f n :: fs')
          end
      end
  end.

(** [f"{n:0{SERIAL_PAD}d}"]: zero padding after the sign, never a
    truncation. *)
Definition format_serial (n : Z) : str :=
  let digits := str_of_N (Z.abs_N n) in
  if n <? 0 then
    lit "-" ++ replicate (SERIAL_PAD cfg - 1 - length digits) 48%N ++ digits
  else replicate (SERIAL_PAD cfg - length digits) 48%N ++ digits.

Definition new_name (f : file_info) (n : Z) : str :=
  PREFIX_CHAR cfg ++ format_serial n ++ CONNECTOR cfg ++ content f ++ ext f.

Definition temp_new_name (f : file_info) (n : Z) (counter : N) : str :=
  PREFIX_CHAR cfg ++ format_serial n ++ CONNECTOR cfg ++ content f
    ++ lit "(" ++ str_of_N counter ++ lit ")" ++ ext f.

(** [os.path.exists(path)]: it follows links, so it is false for a link
    whose target is missing. *)
Definition os_path_exists (fs : folder) (p : str) : bool :=
  match fs !! p with
  | Some RegularFile | Some Directory | Some ProtectedFile => true
  | Some BrokenLink | None => false
  end.

(** [while os.path.exists(temp_new_path): ...]; [None] when the loop is
    still running after [fuel] tests. *)
Fixpoint free_name (fuel : nat) (fs : folder) (f : file_info) (n : Z)
    (counter : N) (temp_new_path : str) : option str :=
  match fuel with
  | O => None
  | S fuel' =>
      if os_path_exists fs temp_new_path then
        free_name fuel' fs f n (counter + 1)%N (temp_new_name f n counter)
      else Some temp_new_path
  end.

(** The length of a name as the file system counts it: bytes of UTF-8
    under [posixpath] (a lone surrogate that the interpreter made of an
    undecodable byte is that one byte again), units of UTF-16 on
    Windows. *)
Definition name_units (c : char) : nat :=
  match os_path with
  | POSIX =>
      if (c <? 128)%N then 1
      else if (c <? 2048)%N then 2
      else if ((56448 <=? c) && (c <=? 56575))%N then 1
      else if (c <? 65536)%N then 3
      else 4
  | NT => if (c <? 65536)%N then 1 else 2
  end.

Definition name_length (p : str) : nat := sum_list (name_units <$> p).

(** The longest name that the usual file systems (ext4, NTFS, APFS)
    store. *)
Definition NAME_MAX : nat := 255.

(** A character that a file name may hold: never the null character or
    a path separator; under [posixpath] no surrogate other than those
    that stand for one byte; on Windows no control character and none
    of the reserved ones (angle brackets, colon, double quote, bar,
    question mark, asterisk). *)
Definition name_char_ok (c : char) : bool :=
  negb (c =? 0)%N && negb (is_sep c)
  && match os_path with
     | POSIX =>
         negb ((55296 <=? c) && (c <=? 57343))%N
         || ((56448 <=? c) && (c <=? 56575))%N
     | NT =>
         (32 <=? c)%N
         && negb (bool_decide (c ∈ [60; 62; 58; 34; 124; 63; 42]%N))
     end.

(** A name that the platform takes for an entry of the folder: its
    characters are allowed, it is not empty, not [.] or [..], and not
    longer than [NAME_MAX]. *)
Definition is_file_name (p : str) : bool :=
  forallb name_char_ok p
  && negb (bool_decide (p = [])) && negb (forallb is_dot p && (length p <=? 2)%nat)
  && (name_length p <=? NAME_MAX)%nat.

(** [os.rename(src, dst)]: a missing [src], a [dst] that is no file
    name and a protected [src] are errors; an existing [dst] is an error
    on Windows and is replaced elsewhere (unless it is a directory); a
    dangling link is an existing [dst] too. *)
Definition os_rename (fs : folder) (src dst : str) : exn + folder :=
  match fs !! src with
  | None => inl (FileNotFoundError src)
  | Some k =>
      if negb (is_file_name dst) then inl (OSError dst)
      else if bool_decide (k = ProtectedFile) then inl (PermissionError src)
      else if bool_decide (src = dst) then inr fs
      else
        match fs !! dst, os_path with
        | Some _, NT => inl (FileExistsError dst)
        | Some Directory, POSIX => inl (IsADirectoryError dst)
        | _, _ => inr (<[dst := k]> (delete src fs))
        end
  end.

(** One iteration of the rename loop of step 5: the folder afterwards
    and the line printed. *)
Definition rename_entry (fuel : nat) (fs : folder) (f : file_info)
    : option (folder * event) :=
  match final_serial f with
  | None => Some (fs, Failed (old_path f) (KeyError (inl (lit "final_serial"))))
  | Some n =>
      temp_new_path ← free_name fuel fs f n 1%N (new_name f n);
      match os_rename fs (old_path f) temp_new_path with
      | inr fs' => Some (fs', Renamed (slice (old_path f) 0 8) temp_new_path)
      | inl e => Some (fs, Failed (old_path f) e)
      end
  end.

Fixpoint rename_all (fuel : nat) (fs : folder) (files : list file_info)
    : option (folder * list event) :=
  match files with
  | [] => Some (fs, [])
  | f :: files' =>
      '(fs1, ev) ← rename_entry fuel fs f;
      '(fs2, evs) ← rename_all fuel fs1 files';
      Some (fs2, ev :: evs)
  end.

Definition is_renamed (ev : event) : bool :=
  match ev with Renamed _ _ => true | _ => false end.

(** [[serial_reverse_map[s] for s in unique_serials]] *)
Fixpoint lookup_all (m : gmap Z Z) (keys : list Z) : exn + list Z :=
  match keys with
  | [] => inr []
  | k :: keys' =>
      match m !! k with
      | None => inl (KeyError (inr k))
      | Some v =>
          match lookup_all m keys' with
          | inl e => inl e
          | inr vs => inr (v :: vs)
          end
      end
  end.

(** [main()].  [target] is [None] when [TARGET_FOLDER] does not exist;
    [listing] is what [os.listdir] yields, in its order.  The result
    is [None] when a [while] loop has not ended within [fuel] tests,
    [Some (inl e)] when [e] escapes, and otherwise the folder and the
    lines printed. *)
Definition main (fuel : nat) (target : option folder) (listing : list str)
    : option (exn + folder * list event) :=
  match target with
  | None => Some (inr (∅, [FolderMissing]))
  | Some fs =>
      let '(sequence_files, log) := scan fs listing in
      match sequence_files with
      | [] => Some (inr (fs, log ++ [NoSequenceFiles]))
      | _ =>
          let U := unique_serials sequence_files in
          let M := serial_reverse_map sequence_files in
          match assign_final M sequence_files with
          | inl e => Some (inl e)
          | inr files =>
              '(fs', evs) ← rename_all fuel fs files;
              let success_count := length (filter is_renamed evs) in
              match lookup_all M U with
              | inl e => Some (inl e)
              | inr final =>
                  Some (inr (fs', log ++ evs ++
                    [Summary success_count
                             (length sequence_files - success_count)
                             U (reverse U) final]))
              end
          end
      end
  end.

(** The names [temp_new_name f n c], ..., [temp_new_name f n (c+m-1)]. *)
Definition counted_names (f : file_info) (n : Z) (c : N) (m : nat) : list str :=
  (fun i => temp_new_name f n (c + N.of_nat i)%N) <$> seq 0 m.

End renamer.

(** The names of a listing that step 2 of [main] keeps: those that are
    not directories and that the classifier accepts. *)
Definition kept {rt : PyRuntime} (cfg : config) (fs : folder) (filename : str)
    : bool :=
  match fs !! filename with
  | Some Directory => false
  | _ =>
      match (is_sequence_file cfg filename).1 with
      | (true, Some _, Some _, _) => true
      | _ => false
      end
  end.

Definition is_failed (ev : event) : bool :=
  match ev with Failed _ _ => true | _ => false end.

(** A line that is no failure, or a failure by which the platform
    refuses the rename: [OSError] for a name that is no file name,
    [PermissionError] for a protected file, or, on Windows,
    [FileExistsError] for a name that is taken (by a dangling link, when
    [os.path.exists] has not reported it). *)
Definition fails_by_refusal {rt : PyRuntime} (ev : event) : Prop :=
  match ev with
  | Failed _ (OSError t) => is_file_name t = false
  | Failed _ (PermissionError _) => True
  | Failed _ (FileExistsError t) => os_path = NT
  | Failed _ _ => False
  | _ => True
  end.

(** One iteration of the rename loop, seen from the folder: nothing
    changes, or the entry [old] goes to a name that [os.path.exists] does
    not report, which is free or, under [posixpath], a dangling link. *)
Definition moved {rt : PyRuntime} (fs fs1 : folder) (old : str) : Prop :=
  fs1 = fs
  \/ exists t k,
       fs !! old = Some k /\ old <> t /\ os_path_exists fs t = false
       /\ (fs !! t = None \/ (fs !! t = Some BrokenLink /\ os_path = POSIX))
       /\ fs1 = <[t := k]> (delete old fs).



(** *** Folders and entries of the examples *)

(** Two files of one run that compose the same name: [1.a.txt] and
    [1 a.txt] both become [No.001. a.txt], and the second one is moved to
    [No.001. a(1).txt]. *)
Definition collision_folder : folder :=
  list_to_map [(lit "1.a.txt", RegularFile); (lit "1 a.txt", RegularFile)].

Definition collision_entry : file_info :=
  {| old_path := lit "1 a.txt"; serial_num := 1; content := lit "a";
     ext := lit ".txt"; final_serial := Some 1 |}.

Definition collision_folder_mid : folder :=
  list_to_map [(lit "No.001. a.txt", RegularFile); (lit "1 a.txt", RegularFile)].

Definition bare_config : config :=
  {| SERIAL_PAD := 1; CONNECTOR := lit "."; PREFIX_CHAR := [];
     BASE_SERIAL := 0; SEPARATORS := [46%N] |}.

Definition own_name_entry : file_info :=
  {| old_path := lit "5.a.txt"; serial_num := 5; content := lit "a";
     ext := lit ".txt"; final_serial := Some 5 |}.

Definition own_name_folder : folder := {[ lit "5.a.txt" := RegularFile ]}.

Definition claim_config : config := {|
  SERIAL_PAD := 3;
  CONNECTOR := lit ". ";
  PREFIX_CHAR := lit "No.";
  BASE_SERIAL := 0;
  SEPARATORS := [46%N; 32%N]
|}.

Definition example_names : list str :=
  [lit "1.Intro.txt"; lit "1.Outro.txt"; lit "3 Middle.txt"].

Definition example_folder : folder :=
  list_to_map ((fun p => (p, RegularFile)) <$> example_names).

Definition example_renames : list event :=
  [Renamed (lit "1.Intro.") (lit "No.003. Intro.txt");
   Renamed (lit "1.Outro.") (lit "No.003. Outro.txt");
   Renamed (lit "3 Middle") (lit "No.001. Middle.txt")].

Definition example_result : folder :=
  list_to_map [(lit "No.003. Intro.txt", RegularFile);
               (lit "No.003. Outro.txt", RegularFile);
               (lit "No.001. Middle.txt", RegularFile)].

Definition example_summary : event := Summary 3 0 [1; 3] [3; 1] [3; 1].

(** A folder with a file and a directory whose name looks like a
    sequence file. *)
Definition folder_with_directory : folder :=
  list_to_map [(lit "1.a.txt", RegularFile); (lit "2.b", Directory)].

(** A file, and a dangling link under the name that the file composes. *)
Definition link_folder : folder :=
  list_to_map [(lit "1.a.txt", RegularFile); (lit "No.001. a.txt", BrokenLink)].

Definition link_entry : file_info :=
  {| old_path := lit "1.a.txt"; serial_num := 1; content := lit "a";
     ext := lit ".txt"; final_serial := Some 1 |}.

(** A name of 255 characters that composes itself under [bare_config]:
    with [(1)] before the extension it has 258. *)
Definition long_content : str := replicate 249 97%N.

Definition long_name : str := lit "5." ++ long_content ++ lit ".txt".

Definition long_entry : file_info :=
  {| old_path := long_name; serial_num := 5; content := long_content;
     ext := lit ".txt"; final_serial := Some 5 |}.

Definition long_folder : folder := {[ long_name := RegularFile ]}.

(** A file that the script may not rename. *)
Definition protected_folder : folder := {[ lit "1.a.txt" := ProtectedFile ]}.

(** A dangling link whose name composes itself. *)
Definition own_link_folder : folder := {[ lit "5.a.txt" := BrokenLink ]}.


End ReSerial.

(** ** ReFileTime/ReTime.py *)
Module ReTime.

Inductive exn :=
| FileNotFoundError (msg : str)
| IsADirectoryError (msg : str)
| ValueError (msg : str)
| OverflowError (msg : str)  (** [time.mktime] on a date out of its range *)
| OSError (msg : str)        (** what a platform call raises *)
| RuntimeError (msg : str).

(** [str(e)] *)
Definition exn_str (e : exn) : str :=
  match e with
  | FileNotFoundError m | IsADirectoryError m | ValueError m
  | OverflowError m | OSError m | RuntimeError m => m
  end.

(** A [datetime] as [strptime] builds it: a date and a time of day. *)
Record datetime := {
  year : Z; month : Z; day : Z; hour : Z; minute : Z; second : Z
}.

(** The three timestamps of a file.  A timestamp is a number; Python
    tests it for truth, which is a comparison with zero. *)
Record file_times := { ctime : Z; atime : Z; mtime : Z }.

(** A path names a file, which may refuse to be opened for writing, or
    a directory. *)
Inductive node := File (t : file_times) (writable : bool) | Dir.

(** The lines the function prints. *)
Inductive line :=
| CreateIgnoredWarning
| Success
| PathLine (p : str)
| CreateLine (s : option str)
| ModifyLine (s : option str)
| AccessLine (s : option str).

(** The platform calls that open or change a file. *)
Inductive syscall :=
| CreateFile (p : str)
| GetFileTime (p : str)
| SetFileTime (p : str) (c a m : Z)
| CloseHandle (p : str)
| utime (p : str) (a m : Z).

Record world := {
  files : gmap str node;
  ticks : nat;                  (** readings of the clock so far *)
  stdout : list line;
  calls : list syscall
}.

(** The machine the script runs on: [platform.system()];
    [datetime.strptime] (the text of its [ValueError], or the date);
    [time.mktime] of the time tuple of a date (the exception it raises,
    [OverflowError] on a date that the C library does not convert, or the
    timestamp); [datetime.fromtimestamp] followed by [pywintypes.Time];
    and the successive readings of [time.time()]. *)
Record host := {
  platform_system : str;
  strptime : str -> str -> str + datetime;
  mktime : datetime -> exn + Z;
  fromtimestamp_Time : Z -> str + Z;
  clock : nat -> Z
}.

(** Statements: a state and exception monad over [world]. *)
Definition M (A : Type) : Type := world -> (exn + A) * world.

#[export] Instance M_ret : MRet M := fun A a w => (inr a, w).
#[export] Instance M_bind : MBind M := fun A B k m w =>
  match m w with
  | (inr a, w') => k a w'
  | (inl e, w') => (inl e, w')
  end.

Definition raise {A} (e : exn) : M A := fun w => (inl e, w).

Definition try_except {A} (m : M A) (handler : exn -> M A) : M A := fun w =>
  match m w with
  | (inl e, w') => handler e w'
  | r => r
  end.

Definition print (l : line) : M unit := fun w =>
  (inr (), {| files := files w; ticks := ticks w;
              stdout := stdout w ++ [l]; calls := calls w |}).

Definition called (c : syscall) : M unit := fun w =>
  (inr (), {| files := files w; ticks := ticks w;
              stdout := stdout w; calls := calls w ++ [c] |}).

Definition set_times (p : str) (t : file_times) : M unit := fun w =>
  (inr (), {| files := alter (fun n => match n with
                                       | File _ wr => File t wr
                                       | Dir => Dir
                                       end) p (files w);
              ticks := ticks w; stdout := stdout w; calls := calls w |}).

Definition stat (p : str) : M (option node) := fun w => (inr (files w !! p), w).

Definition os_path_exists (p : str) : M bool :=
  n ← stat p; mret (bool_decide (is_Some n)).

Definition os_path_isfile (p : str) : M bool :=
  n ← stat p; mret (match n with Some (File _ _) => true | _ => false end).

Definition access_denied : str := lit "Access is denied.".

(** [win32file.CreateFile(path, GENERIC_WRITE, ..., OPEN_EXISTING, ...)];
    the handle is the path. *)
Definition win32file_CreateFile (p : str) : M str :=
  called (CreateFile p);;
  n ← stat p;
  match n with
  | Some (File _ true) => mret p
  | _ => raise (OSError access_denied)
  end.

(** [win32file.GetFileTime(handle)]: creation, access, modification. *)
Definition win32file_GetFileTime (handle : str) : M (Z * Z * Z) :=
  called (GetFileTime handle);;
  n ← stat handle;
  match n with
  | Some (File t _) => mret (ctime t, atime t, mtime t)
  | _ => raise (OSError access_denied)
  end.

Definition win32file_SetFileTime (handle : str) (c a m : Z) : M unit :=
  called (SetFileTime handle c a m);;
  set_times handle {| ctime := c; atime := a; mtime := m |}.

Definition handle_close (handle : str) : M unit := called (CloseHandle handle).

(** [os.utime(path, (atime, mtime))] *)
Definition os_utime (p : str) (a m : Z) : M unit :=
  called (utime p a m);;
  n ← stat p;
  match n with
  | Some (File t true) => set_times p {| ctime := ctime t; atime := a; mtime := m |}
  | _ => raise (OSError access_denied)
  end.

(** The fixed parts of the messages. *)
Definition bad_format_1 : str :=
  [26102; 38388; 26684; 24335; 38169; 35823; 65281; 35831; 25353; 29031; 32]%N.
Definition bad_format_2 : str :=
  [32; 26684; 24335; 36755; 20837; 65292; 38169; 35823; 20449; 24687; 65306]%N.
Definition not_found : str := [25991; 20214; 19981; 23384; 22312; 65306]%N.
Definition not_file : str :=
  [30446; 26631; 36335; 24452; 19981; 26159; 25991; 20214; 65306]%N.
Definition failed : str := [20462; 25913; 22833; 36133; 65306]%N.

Definition default_format : str := lit "%Y-%m-%d %H:%M:%S".

(** Truth of an optional string: [None] and the empty string are false. *)
Definition provided (s : option str) : bool :=
  match s with Some (_ :: _) => true | _ => false end.

(** Truth of an optional timestamp: [None] and zero are false. *)
Definition truthy (ts : option Z) : option Z :=
  match ts with
  | Some t => if t =? 0 then None else Some t
  | None => None
  end.

Section editor.
Context (h : host).

Definition time_time : M Z := fun w =>
  (inr (clock h (ticks w)),
   {| files := files w; ticks := S (ticks w);
      stdout := stdout w; calls := calls w |}).

(** Lines 14 and 15, the body of the [try]: the exception that either
    call raises, or the timestamp. *)
Definition strptime_mktime (time_str format_str : str) : exn + Z :=
  match strptime h time_str format_str with
  | inl e => inl (ValueError e)
  | inr dt => mktime h dt
  end.

(** [convert_to_timestamp]: the handler of line 16 takes a [ValueError]
    only; any other exception passes through it. *)
Definition converted (time_str format_str : str) : exn + Z :=
  match strptime_mktime time_str format_str with
  | inr ts => inr ts
  | inl (ValueError e) =>
      inl (ValueError (bad_format_1 ++ format_str ++ bad_format_2 ++ e))
  | inl e => inl e
  end.

Definition convert_to_timestamp (time_str format_str : str) : M Z :=
  match converted time_str format_str with
  | inr ts => mret ts
  | inl e => raise e
  end.

(** [convert_to_timestamp(s, time_format) if s else None] *)
Definition convert_if_provided (s : option str) (time_format : str)
    : M (option Z) :=
  match s with
  | Some (c :: s') => ts ← convert_to_timestamp (c :: s') time_format; mret (Some ts)
  | _ => mret None
  end.

Definition ts_to_pywintime (ts : Z) : M Z :=
  match fromtimestamp_Time h ts with
  | inr t => mret t
  | inl e => raise (OSError e)
  end.

Definition shown (s : option str) : option str :=
  if provided s then s else None.

(** The [if system == "Windows":] branch: open the file, read its three
    timestamps, replace those that were given, write the three back. *)
Definition windows_branch (file_path : str)
    (new_create_ts new_modify_ts new_access_ts : option Z) : M unit :=
  handle ← win32file_CreateFile file_path;
  '(original_create, original_access, original_modify) ←
    win32file_GetFileTime handle;
  final_create ← from_option ts_to_pywintime (mret original_create)
                   (truthy new_create_ts);
  final_access ← from_option ts_to_pywintime (mret original_access)
                   (truthy new_access_ts);
  final_modify ← from_option ts_to_pywintime (mret original_modify)
                   (truthy new_modify_ts);
  win32file_SetFileTime handle final_create final_access final_modify;;
  handle_close handle.

(** The [else:] branch: warn about a creation time, then [os.utime] with
    the given times or the clock. *)
Definition other_branch (file_path : str)
    (new_create_ts new_modify_ts new_access_ts : option Z) : M unit :=
  match truthy new_create_ts with
  | Some _ => print CreateIgnoredWarning
  | None => mret ()
  end;;
  utime_access ← from_option mret time_time (truthy new_access_ts);
  utime_modify ← from_option mret time_time (truthy new_modify_ts);
  os_utime file_path utime_access utime_modify.

(** The five lines printed after either branch. *)
Definition report (file_path : str)
    (create_time modify_time access_time : option str) : M unit :=
  print Success;;
  print (PathLine file_path);;
  print (CreateLine (shown create_time));;
  print (ModifyLine (shown modify_time));;
  print (AccessLine (shown access_time)).

Definition modify_file_times (file_path : str)
    (create_time modify_time access_time : option str) (time_format : str)
    : M unit :=
  ex ← os_path_exists file_path;
  if negb ex then raise (FileNotFoundError (not_found ++ file_path)) else
  isf ← os_path_isfile file_path;
  if negb isf then raise (IsADirectoryError (not_file ++ file_path)) else
  new_create_ts ← convert_if_provided create_time time_format;
  new_modify_ts ← convert_if_provided modify_time time_format;
  new_access_ts ← convert_if_provided access_time time_format;
  let system := platform_system h in
  try_except
    ((if bool_decide (system = lit "Windows")
      then windows_branch file_path new_create_ts new_modify_ts new_access_ts
      else other_branch file_path new_create_ts new_modify_ts new_access_ts);;
     report file_path create_time modify_time access_time)
    (fun e => raise (RuntimeError (failed ++ exn_str e))).

(** A time string that is given and does not parse. *)
Definition does_not_parse (s : option str) (time_format : str) : Prop :=
  match s with
  | Some (c :: s') => exists e, strptime h (c :: s') time_format = inl e
  | _ => False
  end.

(** A time string that is given and parses to a date for which
    [time.mktime] raises [e], an exception other than [ValueError]. *)
Definition mktime_rejects (s : option str) (time_format : str) (e : exn) : Prop :=
  match s with
  | Some (c :: s') =>
      exists dt, strptime h (c :: s') time_format = inr dt
                 /\ mktime h dt = inl e
                 /\ forall msg, e <> ValueError msg
  | _ => False
  end.

(** A time string that is given and parses to the timestamp zero. *)
Definition parses_to_zero (s : option str) (time_format : str) : bool :=
  match s with
  | Some (c :: s') =>
      match strptime_mktime (c :: s') time_format with
      | inr ts => ts =? 0
      | inl _ => false
      end
  | _ => false
  end.

(** The same argument with such a string left out. *)
Definition without_zero (s : option str) (time_format : str) : option str :=
  if parses_to_zero s time_format then None else s.

(** The lines of the report. *)
Definition report_lines (p : str) (c m a : option str) : list line :=
  [Success; PathLine p; CreateLine (shown c); ModifyLine (shown m);
   AccessLine (shown a)].

Definition add_lines (w : world) (ls : list line) : world :=
  {| files := files w; ticks := ticks w; stdout := stdout w ++ ls;
     calls := calls w |}.

Definition after_set (w : world) (p : str) (t : file_times) (cs : list syscall)
    : world :=
  {| files := <[p := File t true]> (files w); ticks := ticks w;
     stdout := stdout w; calls := calls w ++ cs |}.

(** The result of converting one argument; the world is not touched. *)
Definition parsed (s : option str) (time_format : str) : exn + option Z :=
  match s with
  | Some (c :: s') =>
      match converted (c :: s') time_format with
      | inr ts => inr (Some ts)
      | inl e => inl e
      end
  | _ => inr None
  end.

(** The part of the function after the conversions. *)
Definition apply_and_report (p : str) (c m a : option str)
    (nc nm na : option Z) : M unit :=
  try_except
    ((if bool_decide (platform_system h = lit "Windows")
      then windows_branch p nc nm na
      else other_branch p nc nm na);;
     report p c m a)
    (fun e => raise (RuntimeError (failed ++ exn_str e))).

(** Either branch, then the report or the handler. *)
Definition branch (p : str) (nc nm na : option Z) : M unit :=
  if bool_decide (platform_system h = lit "Windows")
  then windows_branch p nc nm na
  else other_branch p nc nm na.

(** What the Windows branch writes for one of the three times. *)
Definition final_time (new_ts : option Z) (original : Z) : str + Z :=
  match truthy new_ts with
  | Some ts => fromtimestamp_Time h ts
  | None => inr original
  end.

(** The text of the first conversion that fails, in the order of lines
    70 to 72: creation, access, modification. *)
Definition first_failure (fc fa fm : str + Z) : option str :=
  match fc, fa, fm with
  | inl msg, _, _ => Some msg
  | inr _, inl msg, _ => Some msg
  | inr _, inr _, inl msg => Some msg
  | inr _, inr _, inr _ => None
  end.

(** The readings of the clock that the other branch takes. *)
Definition utime_access (na : option Z) (w : world) : Z :=
  from_option id (clock h (ticks w)) (truthy na).

Definition utime_modify (nm na : option Z) (w : world) : Z :=
  from_option id
    (clock h (match truthy na with Some _ => ticks w | None => S (ticks w) end))
    (truthy nm).

Definition after_utime (w : world) (p : str) (t : file_times)
    (nc nm na : option Z) : world :=
  {| files := <[p := File {| ctime := ctime t; atime := utime_access na w;
                             mtime := utime_modify nm na w |} true]> (files w);
     ticks := ticks w + (match truthy na with Some _ => 0 | None => 1 end)
                      + (match truthy nm with Some _ => 0 | None => 1 end);
     stdout := stdout w ++ (match truthy nc with
                            | Some _ => [CreateIgnoredWarning]
                            | None => []
                            end);
     calls := calls w ++ [utime p (utime_access na w) (utime_modify nm na w)] |}.

(** An argument that is absent or parses to zero. *)
Definition zero_or_absent (s : option str) (fmt : str) : Prop :=
  provided s = false \/ parses_to_zero s fmt = true.

End editor.

(** A Windows machine and a Linux machine whose local time is UTC, as far
    as four time strings go: the epoch, noon of that day, the time of the
    script's own example, and a day ten years before the epoch. *)
Definition epoch_str : str := lit "1970-01-01 00:00:00".
Definition noon_str : str := lit "1970-01-01 12:00:00".
Definition example_str : str := lit "2023-01-01 20:00:00".
Definition before_epoch_str : str := lit "1960-01-01 00:00:00".

Definition no_match : str := lit "time data does not match format".

Definition utc_strptime (time_str format_str : str) : str + datetime :=
  if bool_decide (format_str = default_format) then
    if bool_decide (time_str = epoch_str) then
      inr {| year := 1970; month := 1; day := 1;
             hour := 0; minute := 0; second := 0 |}
    else if bool_decide (time_str = noon_str) then
      inr {| year := 1970; month := 1; day := 1;
             hour := 12; minute := 0; second := 0 |}
    else if bool_decide (time_str = example_str) then
      inr {| year := 2023; month := 1; day := 1;
             hour := 20; minute := 0; second := 0 |}
    else if bool_decide (time_str = before_epoch_str) then
      inr {| year := 1960; month := 1; day := 1;
             hour := 0; minute := 0; second := 0 |}
    else inl no_match
  else inl no_match.

(** The days from the epoch to a date of the Gregorian calendar. *)
Definition days_from_civil (y m d : Z) : Z :=
  let y' := if m <=? 2 then y - 1 else y in
  let era := y' / 400 in
  let yoe := y' - era * 400 in
  let doy := (153 * ((m + 9) mod 12) + 2) / 5 + d - 1 in
  let doe := yoe * 365 + yoe / 4 - yoe / 100 + doy in
  era * 146097 + doe - 719468.

(** The seconds from the epoch to a date and time of day, in UTC. *)
Definition utc_seconds (dt : datetime) : Z :=
  days_from_civil (year dt) (month dt) (day dt) * 86400
  + hour dt * 3600 + minute dt * 60 + second dt.

Definition out_of_range : str := lit "mktime argument out of range".

(** [time.mktime] on Linux converts dates before the epoch; the C
    library of Windows does not. *)
Definition linux_mktime (dt : datetime) : exn + Z := inr (utc_seconds dt).

Definition windows_mktime (dt : datetime) : exn + Z :=
  if utc_seconds dt <? 0 then inl (OverflowError out_of_range)
  else inr (utc_seconds dt).

Definition utc_windows : host := {|
  platform_system := lit "Windows";
  strptime := utc_strptime;
  mktime := windows_mktime;
  fromtimestamp_Time ts := inr (ts * 10000000 + 116444736000000000);
  clock k := 1700000000 + Z.of_nat k
|}.

Definition utc_linux : host := {|
  platform_system := lit "Linux";
  strptime := utc_strptime;
  mktime := linux_mktime;
  fromtimestamp_Time ts := inr ts;
  clock k := 1700000000 + Z.of_nat k
|}.

(** A Windows machine on which [datetime.fromtimestamp] refuses the
    timestamps of the first day after the epoch. *)
Definition utc_windows_first_day : host := {|
  platform_system := lit "Windows";
  strptime := utc_strptime;
  mktime := windows_mktime;
  fromtimestamp_Time ts :=
    if ts <? 86400 then inl (lit "[Errno 22] Invalid argument")
    else inr (ts * 10000000 + 116444736000000000);
  clock k := 1700000000 + Z.of_nat k
|}.

(** A file that may not be opened for writing, and a directory. *)
Definition locked_world : world := {|
  files := {[ lit "Ring.mp4" := File {| ctime := 100; atime := 200; mtime := 300 |} false;
              lit "Videos" := Dir ]};
  ticks := 0;
  stdout := [];
  calls := []
|}.

Definition sample_path : str := lit "Ring.mp4".

Definition sample_times : file_times := {| ctime := 100; atime := 200; mtime := 300 |}.

Definition sample_world : world := {|
  files := {[ sample_path := File sample_times true ]};
  ticks := 0;
  stdout := [];
  calls := []
|}.

(** What a run changes outside the report it prints. *)
Definition effects (w : world) : gmap str node * nat * list syscall :=
  (files w, ticks w, calls w).

Definition warned (w : world) : Prop := CreateIgnoredWarning ∈ stdout w.

#[export] Instance exn_eq_dec : EqDecision exn.
Proof. solve_decision. Defined.

#[export] Instance file_times_eq_dec : EqDecision file_times.
Proof. solve_decision. Defined.

#[export] Instance node_eq_dec : EqDecision node.
Proof. solve_decision. Defined.

#[export] Instance line_eq_dec : EqDecision line.
Proof. solve_decision. Defined.

#[export] Instance syscall_eq_dec : EqDecision syscall.
Proof. solve_decision. Defined.

#[export] Instance world_eq_dec : EqDecision world.
Proof. solve_decision. Defined.

End ReTime.


(** * Properties of the serial renamer *)
Module ReSerialProofs.
Import ReSerial.

(** Closed decidable goals by evaluation. *)
Ltac decide_by_vm := apply (bool_decide_unpack _); vm_compute; exact I.

Section remap.
Context (cfg : config).
Implicit Types (U : list Z) (m : gmap Z Z).

Let ins m (p : Z * Z) : gmap Z Z := <[p.1 := BASE_SERIAL cfg + p.2]> m.

Lemma build_map_unfold U :
  build_map cfg U = foldl ins ∅ (zip U (reverse U)).
Proof.
  unfold build_map. generalize (∅ : gmap Z Z).
  induction (zip U (reverse U)) as [|[a b] l IH]; intros m; [done|].
  simpl. by rewrite IH.
Qed.

Lemma foldl_ins_notin (l : list (Z * Z)) m k :
  k ∉ l.*1 -> foldl ins m l !! k = m !! k.
Proof.
  revert m. induction l as [|[a b] l IH]; intros m Hk; [done|].
  rewrite fmap_cons, not_elem_of_cons in Hk. destruct Hk as [Hne Hk].
  simpl. rewrite IH by done. unfold ins; simpl.
  by rewrite lookup_insert_ne.
Qed.

Lemma foldl_ins_lookup (l : list (Z * Z)) m i k v :
  NoDup l.*1 -> l !! i = Some (k, v) ->
  foldl ins m l !! k = Some (BASE_SERIAL cfg + v).
Proof.
  revert m i. induction l as [|[a b] l IH]; intros m i Hnd Hi; [done|].
  rewrite fmap_cons in Hnd. apply NoDup_cons in Hnd as [Ha Hnd].
  destruct i as [|i]; simpl in *.
  - injection Hi as -> ->. rewrite foldl_ins_notin by done.
    unfold ins; simpl. by rewrite lookup_insert_eq.
  - eauto.
Qed.

Lemma foldl_ins_dom (l : list (Z * Z)) m :
  dom (foldl ins m l) = dom m ∪ list_to_set l.*1.
Proof.
  revert m. induction l as [|[a b] l IH]; intros m; simpl.
  - set_solver.
  - rewrite IH. unfold ins; simpl. rewrite dom_insert_L. set_solver.
Qed.

Lemma zip_reverse_fst U : (zip U (reverse U)).*1 = U.
Proof. apply fst_zip. by rewrite length_reverse. Qed.

(** The map sends the [i]-th distinct serial to the base plus the
    [i]-th serial from the end. *)
Lemma build_map_lookup U i u :
  NoDup U -> U !! i = Some u ->
  exists v, U !! (length U - 1 - i)%nat = Some v
         /\ build_map cfg U !! u = Some (BASE_SERIAL cfg + v).
Proof.
  intros Hnd Hi. pose proof (lookup_lt_Some _ _ _ Hi) as Hlt.
  destruct (lookup_lt_is_Some_2 U (length U - 1 - i)%nat) as [v Hv]; [lia|].
  exists v. split; [done|].
  rewrite build_map_unfold.
  apply (foldl_ins_lookup _ _ i); [by rewrite zip_reverse_fst|].
  apply lookup_zip_Some. split; [done|].
  rewrite reverse_lookup by done. rewrite <- Hv. f_equal. lia.
Qed.

Lemma build_map_dom U : dom (build_map cfg U) = list_to_set U.
Proof.
  rewrite build_map_unfold, foldl_ins_dom, zip_reverse_fst. set_solver.
Qed.

Lemma build_map_lookup_inv U u w :
  NoDup U -> build_map cfg U !! u = Some w ->
  exists i v, U !! i = Some u /\ U !! (length U - 1 - i)%nat = Some v
           /\ w = BASE_SERIAL cfg + v.
Proof.
  intros Hnd Hw.
  assert (u ∈ U) as Hin.
  { apply (elem_of_list_to_set (C := gset Z)). rewrite <- build_map_dom.
    apply elem_of_dom. eauto. }
  apply list_elem_of_lookup in Hin as [i Hi].
  destruct (build_map_lookup U i u Hnd Hi) as (v & Hv & HM).
  exists i, v. repeat split; [done..|congruence].
Qed.

End remap.

Lemma StronglySorted_lt_NoDup (U : list Z) : StronglySorted Z.lt U -> NoDup U.
Proof.
  induction 1 as [|x l Hs IH Hall]; constructor; [|done].
  intros Hin. rewrite Forall_forall in Hall. specialize (Hall _ Hin). lia.
Qed.

(** The distinct serials of a run, as the script sorts them, are
    strictly ascending and are exactly the serials of the files. *)
Lemma unique_serials_sorted (files : list file_info) :
  StronglySorted Z.lt (unique_serials files).
Proof.
  unfold unique_serials.
  set (l := elements _).
  assert (NoDup (merge_sort Z.le l)) as Hnd.
  { rewrite merge_sort_Permutation. apply NoDup_elements. }
  assert (StronglySorted Z.le (merge_sort Z.le l)) as Hs.
  { apply Sorted_StronglySorted; [apply _|]. apply Sorted_merge_sort, _. }
  induction Hs as [|x k Hs IH Hall]; constructor.
  - apply IH. by apply NoDup_cons in Hnd as [_ ?].
  - apply NoDup_cons in Hnd as [Hx _].
    rewrite Forall_forall in Hall |- *. intros y Hy.
    specialize (Hall _ Hy). assert (x <> y) by (intros ->; done). lia.
Qed.

Lemma elem_of_unique_serials (files : list file_info) (s : Z) :
  s ∈ unique_serials files <-> exists f, f ∈ files /\ serial_num f = s.
Proof.
  unfold unique_serials. rewrite merge_sort_Permutation, elem_of_elements.
  rewrite elem_of_list_to_set, list_elem_of_fmap. naive_solver.
Qed.

(** *** The classifier *)
Section classifier_proofs.
Context {rt : PyRuntime} (cfg : config).
Implicit Types (s seps tail : str) (c : char).

Lemma rest_then_end_sound s g :
  rest_then_end s = Some g -> exists tail, s = g ++ tail /\ rest_ok g tail.
Proof.
  revert g. induction s as [|c s IH]; intros g; simpl.
  - intros [= <-]. exists []. repeat split; [constructor | by left].
  - destruct (N.eqb_spec c newline) as [->|Hc].
    + destruct s; [|done]. intros [= <-]. exists [newline].
      repeat split; [constructor | by right].
    + destruct (rest_then_end s) as [g'|]; [|done]. simpl. intros [= <-].
      destruct (IH g' eq_refl) as (tail & -> & Hall & Htail).
      exists tail. repeat split; [by constructor | done].
Qed.

Lemma rest_then_end_complete g tail :
  rest_ok g tail -> rest_then_end (g ++ tail) = Some g.
Proof.
  intros [Hall Htail]. induction Hall as [|c g Hc _ IH]; simpl.
  - by destruct Htail as [-> | ->].
  - destruct (N.eqb_spec c newline) as [->|_]; [done|]. by rewrite IH.
Qed.

(** Two readings of one string by the last group agree. *)
Lemma rest_ok_unique g tail g' tail' :
  g ++ tail = g' ++ tail' -> rest_ok g tail -> rest_ok g' tail' -> g = g'.
Proof.
  intros E H H'. apply rest_then_end_complete in H, H'. congruence.
Qed.

Lemma separators_then_None s :
  separators_then cfg s = None ->
  forall seps g tail, ~ separators_split cfg s seps g tail.
Proof.
  induction s as [|c s IH]; simpl; intros Hrun seps g tail (Hs & Hne & Hall & Hok).
  - destruct seps; [done|]. done.
  - destruct seps as [|c' seps]; [done|]. injection Hs as <- Hs.
    apply Forall_cons in Hall as [Hc Hall].
    destruct (in_separators cfg c); [|done].
    destruct (separators_then cfg s) eqn:Hs'; [done|].
    destruct seps as [|c'' seps].
    + simpl in Hs. rewrite Hs, rest_then_end_complete in Hrun; done.
    + by apply (IH eq_refl (c'' :: seps) g tail).
Qed.

Lemma separators_then_Some s g :
  separators_then cfg s = Some g ->
  exists seps tail,
    separators_split cfg s seps g tail
    /\ forall seps' g' tail', separators_split cfg s seps' g' tail' ->
         (length seps' <= length seps)%nat.
Proof.
  revert g. induction s as [|c s IH]; simpl; intros g Hrun; [done|].
  destruct (in_separators cfg c) eqn:Hc; [|done].
  destruct (separators_then cfg s) as [g0|] eqn:Hs'.
  - injection Hrun as ->.
    destruct (IH g eq_refl) as (seps & tail & (-> & Hne & Hall & Hok) & Hmax).
    exists (c :: seps), tail. split.
    + split_and!; try done. constructor; [by rewrite Hc | done].
    + intros seps' g' tail' (Hs & Hne' & Hall' & Hok').
      destruct seps' as [|c' [|c'' seps']]; [done | simpl; lia |].
      injection Hs as _ Hs. apply Forall_cons in Hall' as [_ Hall'].
      simpl. apply le_n_S. by apply (Hmax (c'' :: seps') g' tail').
  - apply rest_then_end_sound in Hrun as (tail & -> & Hok).
    exists [c], tail. split.
    + split_and!; try done. repeat constructor. by rewrite Hc.
    + intros seps' g' tail' (Hs & Hne' & Hall' & Hok').
      destruct seps' as [|c' [|c'' seps']]; [done | simpl; lia |].
      injection Hs as _ Hs. apply Forall_cons in Hall' as [_ Hall'].
      by destruct (separators_then_None _ Hs' (c'' :: seps') g' tail').
Qed.

Lemma digits_then_None s :
  digits_then cfg s = None ->
  forall g1 seps g2 tail, ~ pattern_split cfg s g1 seps g2 tail.
Proof.
  induction s as [|c s IH]; simpl;
    intros Hrun g1 seps g2 tail (Hs & Hne & Hall & Hsne & Hsall & Hok).
  - by destruct g1.
  - destruct g1 as [|c' g1]; [done|]. injection Hs as <- Hs.
    apply Forall_cons in Hall as [Hc Hall].
    destruct (is_decimal c); [|done].
    destruct (digits_then cfg s) as [[??]|] eqn:Hd; [done|].
    destruct (separators_then cfg s) as [?|] eqn:Hsep; [done|].
    destruct g1 as [|c'' g1].
    + by apply (separators_then_None s Hsep seps g2 tail).
    + by apply (IH eq_refl (c'' :: g1) seps g2 tail).
Qed.

Lemma digits_then_Some s g1 g2 :
  digits_then cfg s = Some (g1, g2) ->
  exists seps tail, greedy_split cfg s g1 seps g2 tail.
Proof.
  revert g1 g2. induction s as [|c s IH]; simpl; intros g1 g2 Hrun; [done|].
  destruct (is_decimal c) eqn:Hc; [|done].
  destruct (digits_then cfg s) as [[h1 h2]|] eqn:Hd.
  - injection Hrun as <- <-.
    destruct (IH h1 h2 eq_refl)
      as (seps & tail & (-> & Hne & Hall & Hsne & Hsall & Hok) & Hmax).
    exists seps, tail. split.
    + split_and!; try done. constructor; [by rewrite Hc | done].
    + intros g1' seps' g2' tail' (Hs & Hne' & Hall' & Hsne' & Hsall' & Hok').
      destruct g1' as [|c' [|c'' g1']]; [done | |].
      * destruct h1; [done|]. simpl. split; [lia|]. intros [=].
      * injection Hs as _ Hs. apply Forall_cons in Hall' as [_ Hall'].
        destruct (Hmax (c'' :: g1') seps' g2' tail') as [Hle Heq]; [done|].
        simpl in *. split; [lia|]. intros [= E]. apply Heq. by f_equal.
  - destruct (separators_then cfg s) as [h2|] eqn:Hsep; [|done].
    injection Hrun as <- <-.
    destruct (separators_then_Some s h2 Hsep)
      as (seps & tail & (-> & Hsne & Hsall & Hok) & Hmax).
    exists seps, tail. split.
    + split_and!; try done. repeat constructor. by rewrite Hc.
    + intros g1' seps' g2' tail' (Hs & Hne' & Hall' & Hsne' & Hsall' & Hok').
      destruct g1' as [|c' [|c'' g1']]; [done | |].
      * injection Hs as _ Hs. simpl. split; [lia|]. intros _.
        by apply (Hmax seps' g2' tail').
      * injection Hs as _ Hs. apply Forall_cons in Hall' as [_ Hall'].
        by destruct (digits_then_None _ Hd (c'' :: g1') seps' g2' tail').
Qed.


Lemma int_foldl s (a : Z) :
  Forall is_decimal s ->
  foldl (fun acc c => a ← acc; v ← decimal_value c; Some (10 * a + v)) (Some a) s
  = Some (a * 10 ^ Z.of_nat (length s) + decimal_number s).
Proof.
  intros Hall. revert a. induction Hall as [|c s Hc _ IH]; intros a; simpl.
  - f_equal. lia.
  - unfold is_decimal in Hc. apply bool_decide_unpack in Hc as [v Hv].
    rewrite Hv. simpl. rewrite IH. f_equal.
    rewrite Nat2Z.inj_succ, Z.pow_succ_r by lia. lia.
Qed.

(** [int] reads a string of decimal digits as the number it writes. *)
Lemma int_decimal s :
  s <> [] -> Forall is_decimal s -> int s = inr (decimal_number s).
Proof.
  intros Hne Hall. unfold int. destruct s as [|c s]; [done|].
  rewrite int_foldl by done. simpl. f_equal.
Qed.

Lemma isdigit_decimal s : s <> [] -> Forall is_decimal s -> isdigit s = true.
Proof.
  intros Hne Hall. unfold isdigit. destruct s as [|c s]; [done|].
  apply forallb_forall. intros x Hx%list_elem_of_In.
  rewrite Forall_forall in Hall. specialize (Hall x Hx).
  apply bool_decide_unpack in Hall as [v Hv]. by eapply decimal_isdigit.
Qed.

(** [splitext] cuts the name in two. *)
Lemma splitext_app (p : str) : (splitext p).1 ++ (splitext p).2 = p.
Proof.
  unfold splitext. destruct (_ && _); simpl; [apply take_drop | apply app_nil_r].
Qed.

(** [int_of_digits] on the digits of a match: the number they write,
    unless they are more than the interpreter converts. *)
Lemma int_of_digits_decimal s :
  s <> [] -> Forall is_decimal s ->
  int_of_digits s
  = if (int_max_str_digits <? length s)%nat then inl ValueError
    else inr (decimal_number s).
Proof.
  intros Hne Hall. unfold int_of_digits.
  destruct (_ <? _)%nat; [done|]. by apply int_decimal.
Qed.

(** *** [strip] against the words of its documentation *)

Lemma lstrip_head (sp : char -> bool) s x : head (lstrip sp s) = Some x -> sp x = false.
Proof.
  induction s as [|c s IH]; simpl; [done|].
  destruct (sp c) eqn:Hc; [done|]. simpl. by intros [= <-].
Qed.

Lemma lstrip_suffix (sp : char -> bool) s : exists pre, s = pre ++ lstrip sp s.
Proof.
  induction s as [|c s [pre IH]]; simpl; [by exists []|].
  destruct (sp c); [|by exists []]. exists (c :: pre). simpl. by f_equal.
Qed.

Lemma head_reverse (l : str) : head (reverse l) = last l.
Proof.
  destruct l as [|x l _] using rev_ind; [done|].
  by rewrite reverse_app, last_snoc.
Qed.

Lemma last_reverse (l : str) : last (reverse l) = head l.
Proof. by rewrite <- head_reverse, reverse_involutive. Qed.

(** [strip] leaves no whitespace at either end. *)
Lemma strip_ends (sp : char -> bool) s x :
  head (strip sp s) = Some x \/ last (strip sp s) = Some x -> sp x = false.
Proof.
  unfold strip. rewrite head_reverse, last_reverse. intros [H|H].
  - destruct (lstrip_suffix sp (reverse (lstrip sp s))) as [pre Hpre].
    destruct (lstrip sp (reverse (lstrip sp s))) as [|y l] eqn:E; [done|].
    assert (last (reverse (lstrip sp s)) = Some x) as Hlast.
    { rewrite Hpre. rewrite last_app. by rewrite H. }
    rewrite last_reverse in Hlast. by eapply lstrip_head.
  - by eapply lstrip_head.
Qed.



(** The words pin the result: a string has one stripped form. *)
Lemma stripped_unique s r r' : stripped s r -> stripped s r' -> r = r'.
Proof.
  assert (forall pre r post pre' r' post' : str,
            pre ++ r ++ post = pre' ++ r' ++ post' ->
            Forall (fun c => isspace_char c = true) pre ->
            Forall (fun c => isspace_char c = true) pre' ->
            Forall (fun c => isspace_char c = true) post' ->
            (forall x, head r = Some x -> isspace_char x = false) ->
            (forall x, head r' = Some x -> isspace_char x = false) ->
            r <> [] -> pre = pre') as Hfront.
  { intros pre. induction pre as [|c pre IH];
      intros u post pre' u' post' E H1 H2 H3 Hu Hu' Hne.
    - destruct pre' as [|c' pre']; [done|]. exfalso.
      destruct u as [|x u]; [done|]. simpl in E. injection E as -> _.
      apply Forall_cons in H2 as [H2 _]. rewrite (Hu c') in H2; done.
    - apply Forall_cons in H1 as [Hc H1].
      destruct pre' as [|c' pre'].
      + exfalso. simpl in E. destruct u' as [|x u'].
        * simpl in E. rewrite <- E in H3. apply Forall_cons in H3 as [_ H3].
          rewrite !Forall_app in H3. destruct H3 as (_ & H3 & _).
          destruct u as [|y u]; [done|]. apply Forall_cons in H3 as [H3 _].
          rewrite (Hu y) in H3; done.
        * injection E as -> _. rewrite (Hu' x) in Hc; done.
      + simpl in E. injection E as -> E. f_equal.
        apply Forall_cons in H2 as [_ H2]. by eapply IH. }
  intros (pre & post & Hs & Hpre & Hpost & Hends).
  intros (pre' & post' & Hs' & Hpre' & Hpost' & Hends').
  destruct r as [|x r].
  { destruct r' as [|y r']; [done|]. exfalso.
    assert (Forall (fun c => isspace_char c = true) s) as Hall.
    { rewrite Hs. apply Forall_app. split; [done|]. by simpl. }
    rewrite Hs', !Forall_app in Hall. destruct Hall as (_ & Hall & _).
    apply Forall_cons in Hall as [Hy _]. rewrite (Hends' y) in Hy; [done|by left]. }
  destruct r' as [|y r'].
  { exfalso.
    assert (Forall (fun c => isspace_char c = true) s) as Hall.
    { rewrite Hs'. apply Forall_app. split; [done|]. by simpl. }
    rewrite Hs, !Forall_app in Hall. destruct Hall as (_ & Hall & _).
    apply Forall_cons in Hall as [Hx _]. rewrite (Hends x) in Hx; [done|by left]. }
  assert (pre = pre') as <-.
  { apply (Hfront pre (x :: r) post pre' (y :: r') post'); try done.
    - congruence.
    - intros z Hz. apply Hends. by left.
    - intros z Hz. apply Hends'. by left. }
  rewrite Hs in Hs'. apply app_inv_head in Hs'.
  assert (reverse post = reverse post') as Hback.
  { apply (Hfront (reverse post) (reverse (x :: r)) [] (reverse post')
             (reverse (y :: r')) []).
    - rewrite !app_nil_r, <- !reverse_app. by f_equal.
    - by apply Forall_reverse.
    - by apply Forall_reverse.
    - constructor.
    - intros z Hz. apply Hends. right. by rewrite <- head_reverse.
    - intros z Hz. apply Hends'. right. by rewrite <- head_reverse.
    - intros E%(f_equal length). rewrite length_reverse in E. done. }
  apply (inj reverse) in Hback. subst post'. by apply app_inv_tail in Hs'.
Qed.

(** *** [splitext] against the words of its documentation *)


(** The last character that [P] selects cuts a string in one way only. *)
Lemma last_occurrence_unique (P : char -> bool) (l1 l2 l1' l2' : str) c c' :
  l1 ++ c :: l2 = l1' ++ c' :: l2' ->
  P c = true -> P c' = true ->
  Forall (fun x => P x = false) l2 -> Forall (fun x => P x = false) l2' ->
  l1 = l1' /\ c = c' /\ l2 = l2'.
Proof.
  intros E Hc Hc' H2 H2'.
  apply app_eq_app in E as [l [[-> E]|[-> E]]].
  - destruct l as [|x l]; simpl in E.
    + injection E as -> ->. by rewrite app_nil_r.
    + injection E as -> ->. rewrite Forall_app in H2'. destruct H2' as [_ H2'].
      apply Forall_cons in H2' as [H2' _]. congruence.
  - destruct l as [|x l]; simpl in E.
    + injection E as -> ->. by rewrite app_nil_r.
    + injection E as -> ->. rewrite Forall_app in H2. destruct H2 as [_ H2].
      apply Forall_cons in H2 as [H2 _]. congruence.
Qed.




Lemma has_extension_last_dot (p root e pre post : str) :
  has_extension p root e ->
  p = pre ++ dot :: post -> Forall (fun c => is_dot c = false) post ->
  root = pre /\ e = post.
Proof.
  intros (Hp & He & _) Hp' Hpost. rewrite Hp in Hp'.
  apply (last_occurrence_unique is_dot) in Hp' as (? & _ & ?); try done.
  eapply Forall_impl; [exact He|]. by intros c [? _].
Qed.




(** The words pin the result: a path is cut in one way only. *)
Lemma splits_extension_unique (p root ext root' ext' : str) :
  splits_extension p root ext -> splits_extension p root' ext' ->
  root = root' /\ ext = ext'.
Proof.
  intros [(e & -> & H)|(-> & -> & H)] [(e' & -> & H')|(-> & -> & H')].
  - destruct H as (Hp & He & Hr).
    destruct (has_extension_last_dot p root' e' root e H' Hp) as [-> ->]; [|done].
    eapply Forall_impl; [exact He|]. by intros c [? _].
  - by destruct (H' root e).
  - by destruct (H root' e').
  - done.
Qed.


End classifier_proofs.




(** *** The classifier reads ASCII names the same way on every conformant
    runtime *)
Section ascii_names.
Context (rt : PyRuntime) (cfg : config).
Context (Hrt : ascii_conformant rt) (Hseps : ascii_str (SEPARATORS cfg)).

Let art : PyRuntime := ascii_runtime (@os_path rt).

Lemma is_decimal_ascii c :
  (c < 128)%N -> is_decimal (rt := rt) c = is_decimal (rt := art) c.
Proof. intros Hc. unfold is_decimal. by destruct (Hrt c Hc) as (-> & _). Qed.

Lemma in_separators_ascii c :
  (c < 128)%N -> in_separators (rt := rt) cfg c = in_separators (rt := art) cfg c.
Proof.
  intros Hc. unfold in_separators. revert Hseps.
  generalize (SEPARATORS cfg) as l. induction 1 as [|p l Hp _ IH]; [done|].
  simpl. destruct (Hrt c Hc) as (_ & _ & Hci). by rewrite (Hci p Hp), IH.
Qed.

Lemma separators_then_ascii s :
  ascii_str s -> separators_then (rt := rt) cfg s = separators_then (rt := art) cfg s.
Proof.
  induction 1 as [|c s Hc _ IH]; [done|]. simpl.
  by rewrite in_separators_ascii, IH.
Qed.

Lemma digits_then_ascii s :
  ascii_str s -> digits_then (rt := rt) cfg s = digits_then (rt := art) cfg s.
Proof.
  induction 1 as [|c s Hc Hs IH]; [done|]. simpl.
  by rewrite is_decimal_ascii, IH, separators_then_ascii.
Qed.

Lemma decimal_number_ascii s :
  ascii_str s -> decimal_number (rt := rt) s = decimal_number (rt := art) s.
Proof.
  induction 1 as [|c s Hc _ IH]; [done|]. simpl.
  destruct (Hrt c Hc) as (-> & _). by rewrite IH.
Qed.

Lemma lstrip_ascii s :
  ascii_str s -> lstrip (isspace_char (PyRuntime := rt)) s = lstrip py_isspace s.
Proof.
  induction 1 as [|c s Hc _ IH]; [done|]. simpl.
  destruct (Hrt c Hc) as (_ & -> & _). by rewrite IH.
Qed.

Lemma lstrip_ascii_str sp s : ascii_str s -> ascii_str (lstrip sp s).
Proof.
  induction 1 as [|c s Hc Hs IH]; [constructor|]. simpl.
  destruct (sp c); [done | by constructor].
Qed.

Lemma strip_ascii s :
  ascii_str s -> strip (isspace_char (PyRuntime := rt)) s = strip py_isspace s.
Proof.
  intros Hs. unfold strip. rewrite (lstrip_ascii s Hs). f_equal.
  apply lstrip_ascii. unfold ascii_str. rewrite Forall_reverse.
  by apply lstrip_ascii_str.
Qed.

Lemma is_sequence_file_ascii filename :
  ascii_str filename ->
  is_sequence_file (rt := rt) cfg filename = is_sequence_file (rt := art) cfg filename.
Proof.
  intros Hf. unfold is_sequence_file.
  change (splitext (rt := art) filename) with (splitext (rt := rt) filename).
  pose proof (splitext_app (rt := rt) filename) as Happ.
  destruct (splitext (rt := rt) filename) as [name ext]. simpl in Happ.
  assert (ascii_str name) as Hname.
  { unfold ascii_str in *. rewrite <- Happ in Hf. by apply Forall_app in Hf as [? _]. }
  unfold try_block, re_match. rewrite <- (digits_then_ascii name Hname).
  clear Hseps. destruct (SEPARATORS cfg) as [|sep0 seps0]; [done|].
  destruct (digits_then (rt := rt) cfg name) as [[g1 g2]|] eqn:Hrun; [|done].
  destruct (digits_then_Some cfg name g1 g2 Hrun)
    as (seps & tail & (Hs & Hne & Hall & _) & _).
  assert (ascii_str g1 /\ ascii_str g2) as [Hg1 Hg2].
  { unfold ascii_str in *. rewrite Hs, !Forall_app in Hname. tauto. }
  assert (Forall (is_decimal (rt := art)) g1) as Hall'.
  { unfold ascii_str in Hg1. rewrite Forall_forall in Hall, Hg1 |- *.
    intros x Hx. rewrite <- is_decimal_ascii; auto. }
  rewrite (isdigit_decimal (rt := rt)), (isdigit_decimal (rt := art)) by done.
  rewrite (int_of_digits_decimal (rt := rt)), (int_of_digits_decimal (rt := art))
    by done.
  destruct (_ <? _)%nat; [done|].
  simpl. by rewrite decimal_number_ascii, strip_ascii.
Qed.

Lemma scan_ascii (fs : folder) (listing : list str) :
  Forall ascii_str listing ->
  scan (rt := rt) cfg fs listing = scan (rt := art) cfg fs listing.
Proof.
  unfold scan. generalize (@nil file_info, @nil event).
  intros acc Hall. revert acc. induction Hall as [|f l Hf _ IH]; intros acc; [done|].
  simpl. rewrite IH. f_equal. unfold scan_step.
  by rewrite is_sequence_file_ascii.
Qed.

Lemma rename_all_ascii (fuel : nat) (fs : folder) (files : list file_info) :
  rename_all (rt := rt) cfg fuel fs files = rename_all (rt := art) cfg fuel fs files.
Proof.
  revert fs. induction files as [|f files IH]; intros fs; [done|].
  simpl. change (rename_entry (rt := art) cfg fuel fs f)
    with (rename_entry (rt := rt) cfg fuel fs f).
  destruct (rename_entry (rt := rt) cfg fuel fs f) as [[fs1 ev]|]; [|done].
  simpl. by rewrite IH.
Qed.

(** A run over ASCII names depends on the runtime through the flavour of
    [os.path] alone. *)
Lemma main_ascii (fuel : nat) (target : option folder) (listing : list str) :
  Forall ascii_str listing ->
  main (rt := rt) cfg fuel target listing = main (rt := art) cfg fuel target listing.
Proof.
  intros Hall. unfold main. destruct target as [fs|]; [|done].
  rewrite (scan_ascii fs listing Hall).
  destruct (scan (rt := art) cfg fs listing) as [[|f files] log]; [done|].
  destruct (assign_final _ _) as [e|files']; [done|].
  by rewrite rename_all_ascii.
Qed.

End ascii_names.

(** *** More fuel does not change a run that has ended *)
Section fuel.
Context {rt : PyRuntime} (cfg : config).

Lemma free_name_mono (fuel fuel' : nat) (fs : folder) f n c temp t :
  (fuel <= fuel')%nat ->
  free_name cfg fuel fs f n c temp = Some t ->
  free_name cfg fuel' fs f n c temp = Some t.
Proof.
  revert fuel' c temp. induction fuel as [|fuel IH]; intros fuel' c temp Hle Hrun; [done|].
  destruct fuel' as [|fuel']; [lia|]. simpl in *.
  destruct (os_path_exists fs temp); [|done]. apply IH; [lia | done].
Qed.

Lemma rename_entry_mono (fuel fuel' : nat) (fs : folder) f r :
  (fuel <= fuel')%nat ->
  rename_entry cfg fuel fs f = Some r -> rename_entry cfg fuel' fs f = Some r.
Proof.
  intros Hle. unfold rename_entry. destruct (final_serial f) as [n|]; [|done].
  destruct (free_name cfg fuel fs f n 1 (new_name cfg f n)) as [t|] eqn:Hrun; [|done].
  by rewrite (free_name_mono fuel fuel' fs f n _ _ t Hle Hrun).
Qed.

Lemma rename_all_mono (fuel fuel' : nat) (fs : folder) files r :
  (fuel <= fuel')%nat ->
  rename_all cfg fuel fs files = Some r -> rename_all cfg fuel' fs files = Some r.
Proof.
  intros Hle. revert fs r. induction files as [|f files IH]; intros fs r; [done|].
  simpl. destruct (rename_entry cfg fuel fs f) as [[fs1 ev]|] eqn:Hstep; [|done].
  rewrite (rename_entry_mono fuel fuel' fs f _ Hle Hstep). simpl.
  destruct (rename_all cfg fuel fs1 files) as [[fs2 evs]|] eqn:Hrest; [|done].
  by rewrite (IH fs1 _ Hrest).
Qed.

Lemma main_mono (fuel fuel' : nat) (target : option folder) (listing : list str) r :
  (fuel <= fuel')%nat ->
  main cfg fuel target listing = Some r -> main cfg fuel' target listing = Some r.
Proof.
  intros Hle. unfold main. destruct target as [fs|]; [|done].
  destruct (scan cfg fs listing) as [[|f files] log]; [done|].
  destruct (assign_final _ _) as [e|files']; [done|].
  destruct (rename_all cfg fuel fs files') as [[fs' evs]|] eqn:Hrun; [|done].
  by rewrite (rename_all_mono fuel fuel' fs files' _ Hle Hrun).
Qed.

End fuel.

(** *** Names with a counter are pairwise distinct *)

Lemma lit_inj (s1 s2 : string) : lit s1 = lit s2 -> s1 = s2.
Proof.
  unfold lit. intros H.
  rewrite <- (string_of_list_ascii_of_string s1),
          <- (string_of_list_ascii_of_string s2).
  f_equal. revert H. generalize (list_ascii_of_string s1) as l1.
  generalize (list_ascii_of_string s2) as l2.
  induction l2 as [|a2 l2 IH]; intros [|a1 l1] H; try done.
  rewrite !fmap_cons in H. injection H as Ha Hl. f_equal; [|by apply IH].
  rewrite <- (ascii_N_embedding a1), <- (ascii_N_embedding a2). by f_equal.
Qed.

Lemma str_of_N_inj (a b : N) : str_of_N a = str_of_N b -> a = b.
Proof. intros H. apply lit_inj in H. by apply (inj pretty) in H. Qed.

Section executor.
Context {rt : PyRuntime} (cfg : config).
Implicit Types (fs : folder) (f : file_info) (n : Z).

Lemma temp_new_name_inj f n (a b : N) :
  temp_new_name cfg f n a = temp_new_name cfg f n b -> a = b.
Proof.
  unfold temp_new_name. intros H.
  do 5 apply app_inv_head in H.
  apply app_inv_tail in H. by apply str_of_N_inj.
Qed.

Lemma counted_names_NoDup f n c m : NoDup (counted_names cfg f n c m).
Proof.
  apply NoDup_fmap_2; [|apply NoDup_seq].
  intros i j H. apply temp_new_name_inj in H. lia.
Qed.

Lemma os_path_exists_lookup fs (p : str) :
  os_path_exists fs p = true -> is_Some (fs !! p).
Proof. unfold os_path_exists. destruct (fs !! p) as [[]|]; by eauto. Qed.

Lemma os_path_exists_kind fs (p : str) (k : kind) :
  fs !! p = Some k -> k <> BrokenLink -> os_path_exists fs p = true.
Proof. unfold os_path_exists. intros ->. by destruct k. Qed.

(** A loop that is still running has found every name tried so far in
    the folder. *)
Lemma free_name_None fuel fs f n c temp :
  free_name cfg fuel fs f n c temp = None ->
  forall p, p ∈ counted_names cfg f n c (fuel - 1) -> os_path_exists fs p = true.
Proof.
  revert c temp. induction fuel as [|fuel IH]; intros c temp Hrun p Hp.
  - by apply elem_of_nil in Hp.
  - simpl in Hrun. destruct (os_path_exists fs temp) eqn:Htemp; [|done].
    unfold counted_names in Hp. apply list_elem_of_fmap in Hp as (i & -> & Hi).
    apply elem_of_seq in Hi.
    destruct fuel as [|fuel]; [simpl in Hi; lia|].
    destruct i as [|i].
    + simpl in Hrun. rewrite N.add_0_r.
      by destruct (os_path_exists fs (temp_new_name cfg f n c)).
    + apply (IH _ _ Hrun). unfold counted_names.
      apply list_elem_of_fmap. exists i. split.
      * f_equal. lia.
      * apply elem_of_seq. simpl in *. lia.
Qed.

(** The loop ends: a folder holds finitely many names. *)
Lemma free_name_terminates fuel fs f n c temp :
  (size fs + 1 < fuel)%nat -> is_Some (free_name cfg fuel fs f n c temp).
Proof.
  intros Hfuel.
  destruct (free_name cfg fuel fs f n c temp) as [t|] eqn:Hrun; [eauto|].
  exfalso.
  assert (counted_names cfg f n c (fuel - 1) ⊆+ elements (dom fs)) as Hsub.
  { apply NoDup_submseteq; [apply counted_names_NoDup|].
    intros p Hp. apply elem_of_elements, elem_of_dom, os_path_exists_lookup.
    by eapply free_name_None. }
  apply submseteq_length in Hsub.
  unfold counted_names in Hsub. rewrite length_fmap, length_seq in Hsub.
  change (length (elements (dom fs))) with (size (dom fs)) in Hsub.
  rewrite size_dom in Hsub. lia.
Qed.

(** What the loop returns: the first of [temp], [name c],
    [name (c+1)], ... that [os.path.exists] does not report. *)
Lemma free_name_Some fuel fs f n c temp t :
  free_name cfg fuel fs f n c temp = Some t ->
  os_path_exists fs t = false
  /\ (os_path_exists fs temp = false -> t = temp)
  /\ (os_path_exists fs temp = true ->
      exists k, (c <= k)%N /\ t = temp_new_name cfg f n k
             /\ forall j, (c <= j < k)%N ->
                  os_path_exists fs (temp_new_name cfg f n j) = true).
Proof.
  revert c temp. induction fuel as [|fuel IH]; intros c temp Hrun; [done|].
  simpl in Hrun. destruct (os_path_exists fs temp) eqn:Htemp.
  - apply IH in Hrun as (Hfree & Hnone & Hsome).
    split; [done|]. split; [done|]. intros _.
    destruct (os_path_exists fs (temp_new_name cfg f n c)) eqn:Hc.
    + destruct Hsome as (k & Hk & -> & Hbelow); [done|].
      exists k. split; [lia|]. split; [done|].
      intros j Hj. destruct (decide (j = c)) as [->|]; [done|].
      apply Hbelow. lia.
    + exists c. split; [lia|]. split; [by apply Hnone|]. intros j Hj. lia.
  - injection Hrun as <-. split; [done|]. split; [done|]. done.
Qed.

(** What [os.rename] does with an existing source and a destination
    that [os.path.exists] does not report. *)
Lemma os_rename_cases fs (src dst : str) (k : kind) :
  fs !! src = Some k -> os_path_exists fs dst = false ->
  (is_file_name dst = false /\ os_rename fs src dst = inl (OSError dst))
  \/ (is_file_name dst = true /\ k = ProtectedFile
      /\ os_rename fs src dst = inl (PermissionError src))
  \/ (is_file_name dst = true /\ k <> ProtectedFile
      /\ ((src = dst /\ os_rename fs src dst = inr fs)
          \/ (src <> dst /\ fs !! dst = None
              /\ os_rename fs src dst = inr (<[dst := k]> (delete src fs)))
          \/ (src <> dst /\ fs !! dst = Some BrokenLink /\ os_path = POSIX
              /\ os_rename fs src dst = inr (<[dst := k]> (delete src fs)))
          \/ (src <> dst /\ fs !! dst = Some BrokenLink /\ os_path = NT
              /\ os_rename fs src dst = inl (FileExistsError dst)))).
Proof.
  intros Hsrc Hdst. unfold os_rename. rewrite Hsrc.
  destruct (is_file_name dst) eqn:Hname; simpl; [|by left].
  case_bool_decide as Hk; [right; left; done|].
  right. right. split; [done|]. split; [done|].
  case_bool_decide as Heq; [left; done|].
  unfold os_path_exists in Hdst.
  destruct (fs !! dst) as [[]|] eqn:Hd; try done.
  - destruct os_path eqn:Hfl.
    + do 3 right. done.
    + do 2 right. left. done.
  - right. left. by destruct os_path.
Qed.

(** One iteration of the rename loop: the name that the loop settles on,
    then the answer of [os.rename]. *)
Lemma rename_entry_spec fuel fs f n :
  final_serial f = Some n -> (size fs + 1 < fuel)%nat ->
  exists target,
    free_name cfg fuel fs f n 1%N (new_name cfg f n) = Some target
    /\ rename_entry cfg fuel fs f =
         Some (match os_rename fs (old_path f) target with
               | inr fs' => (fs', Renamed (slice (old_path f) 0 8) target)
               | inl e => (fs, Failed (old_path f) e)
               end).
Proof.
  intros Hn Hfuel.
  destruct (free_name_terminates fuel fs f n 1%N (new_name cfg f n) Hfuel)
    as [target Hrun].
  exists target. split; [done|].
  unfold rename_entry. rewrite Hn, Hrun. simpl.
  by destruct (os_rename fs (old_path f) target).
Qed.


(** Whatever an iteration does, it moves at most its own entry, prints a
    success or a failure, and fails only by a refusal of the platform when
    its entry is there. *)
Lemma rename_entry_inv fuel fs f fs1 ev :
  rename_entry cfg fuel fs f = Some (fs1, ev) ->
  moved fs fs1 (old_path f)
  /\ is_renamed ev || is_failed ev = true
  /\ (is_Some (final_serial f) -> is_Some (fs !! old_path f) ->
        fails_by_refusal ev).
Proof.
  unfold rename_entry. intros Hstep.
  destruct (final_serial f) as [n|].
  2:{ injection Hstep as <- <-. split; [by left|]. split; [done|].
      by intros [? ?]. }
  destruct (free_name cfg fuel fs f n 1 (new_name cfg f n)) as [t|] eqn:Hrun;
    [|done].
  apply free_name_Some in Hrun as (Hfree & _). simpl in Hstep.
  destruct (fs !! old_path f) as [k|] eqn:Hold.
  - destruct (os_rename_cases fs (old_path f) t k Hold Hfree)
      as [(Hname & Hr)|[(Hname & Hk & Hr)|(Hname & Hk & [(Heq & Hr)
         |[(Hne & Ht & Hr)|[(Hne & Ht & Hfl & Hr)|(Hne & Ht & Hfl & Hr)]]])]];
      rewrite Hr in Hstep; injection Hstep as <- <-.
    + split; [by left|]. by split.
    + split; [by left|]. by split.
    + split; [by left|]. by split.
    + split; [|by split]. right. exists t, k. split_and!; try done. by left.
    + split; [|by split]. right. exists t, k. split_and!; try done. by right.
    + split; [by left|]. by split.
  - unfold os_rename in Hstep. rewrite Hold in Hstep.
    injection Hstep as <- <-. split; [by left|]. split; [done|].
    by intros _ [? ?].
Qed.

(** *** What a move does to the folder *)



(** Another entry stays, unless it is a dangling link where links are
    replaced. *)
Lemma moved_lookup fs fs1 (old p : str) (kp : kind) :
  moved fs fs1 old -> p <> old -> fs !! p = Some kp ->
  kp <> BrokenLink \/ os_path = NT ->
  fs1 !! p = Some kp.
Proof.
  intros [->|(t & k & Hold & Hne & Hfree & Ht & ->)] Hp Hkp Hsafe; [done|].
  assert (p <> t) as Hpt.
  { intros ->. destruct Ht as [Ht|[Ht Hfl]]; [congruence|].
    destruct Hsafe; congruence. }
  by rewrite lookup_insert_ne, lookup_delete_ne.
Qed.


End executor.


(** C3, as amended.  For every entry the rename loop processes and every
    folder it meets (whatever earlier iterations of the run have already
    renamed), the loop ends on the first of the composed name and that
    name with [(c)] before the extension, [c = 1, 2, 3, ...], that
    [os.path.exists] does not report, and [os.rename] is called with it.
    No entry that [os.path.exists] reports is overwritten, and no entry
    other than the one at the name found changes.  When the platform
    takes the name found and lets the entry be renamed, and the folder has
    nothing under that name, the entry is moved there and the folder keeps
    its size; when the platform does not take the name, or protects the
    entry, the failure is printed and the folder stays as it was. *)
Theorem rename_never_overwrites {rt : PyRuntime} (cfg : config) (fuel : nat)
    (fs : folder) (f : file_info) (n : Z) (k : kind) :
  final_serial f = Some n ->
  fs !! old_path f = Some k ->
  (size fs + 1 < fuel)%nat ->
  exists target fs' ev,
    rename_entry cfg fuel fs f = Some (fs', ev)
    /\ os_path_exists fs target = false
    /\ (os_path_exists fs (new_name cfg f n) = false -> target = new_name cfg f n)
    /\ (os_path_exists fs (new_name cfg f n) = true ->
        exists c, (1 <= c)%N /\ target = temp_new_name cfg f n c
               /\ forall j, (1 <= j < c)%N ->
                    os_path_exists fs (temp_new_name cfg f n j) = true)
    /\ (forall p, os_path_exists fs p = true -> p <> old_path f ->
                  fs' !! p = fs !! p)
    /\ (forall p, p <> old_path f -> p <> target -> fs' !! p = fs !! p)
    /\ (is_file_name target = true -> k <> ProtectedFile ->
        fs !! target = None ->
          ev = Renamed (slice (old_path f) 0 8) target
          /\ fs' !! target = Some k
          /\ fs' !! old_path f = None
          /\ size fs' = size fs)
    /\ (is_file_name target = false ->
          ev = Failed (old_path f) (OSError target) /\ fs' = fs)
    /\ (is_file_name target = true -> k = ProtectedFile ->
          ev = Failed (old_path f) (PermissionError (old_path f)) /\ fs' = fs).
Proof.
  intros Hn Hold Hfuel.
  destruct (rename_entry_spec cfg fuel fs f n Hn Hfuel) as (t & Hrun & Hstep).
  apply free_name_Some in Hrun as (Hfree & Hnone & Hsome).
  assert (forall p, os_path_exists fs p = true -> p <> t) as Hother.
  { intros p Hp ->. congruence. }
  assert (forall p, p <> old_path f -> p <> t ->
            <[t := k]> (delete (old_path f) fs) !! p = fs !! p) as Hframe.
  { intros p H1 H2. by rewrite lookup_insert_ne, lookup_delete_ne. }
  exists t.
  destruct (os_rename_cases fs (old_path f) t k Hold Hfree)
    as [(Hname & Hr)|[(Hname & Hk & Hr)|(Hname & Hk & [(Heq & Hr)
       |[(Hne & Ht & Hr)|[(Hne & Ht & Hfl & Hr)|(Hne & Ht & Hfl & Hr)]]])]];
    rewrite Hr in Hstep; eexists _, _; (split; [exact Hstep|]);
    split_and!; try done; try congruence.
  - intros p Hp Hpo. apply Hframe; [done | by apply Hother].
  - intros _ _ _. split_and!; try done.
    + apply lookup_insert_eq.
    + by rewrite lookup_insert_ne, lookup_delete_eq.
    + rewrite map_size_insert_None by (by rewrite lookup_delete_ne).
      rewrite map_size_delete_Some by eauto.
      assert (size fs <> 0%nat); [|lia].
      apply map_size_ne_0_lookup_2 with (old_path f). eauto.
  - intros p Hp Hpo. apply Hframe; [done | by apply Hother].
Qed.

Example collision_in_one_run :
  main (rt := ascii_runtime NT) source_config 4 (Some collision_folder)
       [lit "1.a.txt"; lit "1 a.txt"]
  = Some (inr (list_to_map [(lit "No.001. a.txt", RegularFile);
                            (lit "No.001. a(1).txt", RegularFile)],
               [Renamed (lit "1.a.txt") (lit "No.001. a.txt");
                Renamed (lit "1 a.txt") (lit "No.001. a(1).txt");
                Summary 2 0 [1] [1] [1]])).
Proof. decide_by_vm. Qed.

(** A protected file stays where it is, and the run reports the failure. *)
Example protected_file_stays :
  main (rt := ascii_runtime POSIX) source_config 3 (Some protected_folder)
       [lit "1.a.txt"]
  = Some (inr (protected_folder,
               [Failed (lit "1.a.txt") (PermissionError (lit "1.a.txt"));
                Summary 0 1 [1] [1] [1]])).
Proof. decide_by_vm. Qed.

Lemma rename_never_overwrites_witness :
  exists target fs' ev,
    rename_entry (rt := ascii_runtime NT) source_config 4 collision_folder_mid
                 collision_entry
    = Some (fs', ev)
    /\ os_path_exists collision_folder_mid target = false
    /\ (forall p, os_path_exists collision_folder_mid p = true ->
                  p <> lit "1 a.txt" -> fs' !! p = collision_folder_mid !! p).
Proof.
  destruct (rename_never_overwrites (rt := ascii_runtime NT) source_config 4
              collision_folder_mid collision_entry 1 RegularFile)
    as (target & fs' & ev & H1 & H2 & _ & _ & H3 & _).
  - reflexivity.
  - vm_compute. reflexivity.
  - vm_compute. lia.
  - exists target, fs', ev. split; [exact H1|]. split; [exact H2|]. exact H3.
Defined.

(** The amendment of C3 is forced by two runs under [posixpath].  A
    dangling link that has the composed name is an entry of the folder
    that [os.path.exists] does not report: the file is renamed onto it
    and the link is gone.  And a composed name that exists, with a first
    free variant of 258 characters: the file is not renamed at all. *)
Lemma rename_replaces_dangling_link :
  (link_folder !! lit "No.001. a.txt" = Some BrokenLink
   /\ rename_entry (rt := ascii_runtime POSIX) source_config 4 link_folder link_entry
      = Some ({[ lit "No.001. a.txt" := RegularFile ]},
              Renamed (lit "1.a.txt") (lit "No.001. a.txt")))
  /\ (os_path_exists long_folder (new_name bare_config long_entry 5) = true
      /\ rename_entry (rt := ascii_runtime POSIX) bare_config 4 long_folder long_entry
         = Some (long_folder,
                 Failed long_name
                        (OSError (temp_new_name bare_config long_entry 5 1)))).
Proof. split; split; decide_by_vm. Qed.

(** C10, as amended.  When the composed name of an entry is the name that
    the entry already has, and [os.path.exists] reports it, the loop runs
    and ends on the composed name with [(c)] before the extension, for the
    least [c >= 1] that gives a name that [os.path.exists] does not
    report.  When the platform takes that name and lets the entry be
    renamed, and the folder has nothing under that name, the entry is
    moved there; when the platform does not take the name (it may be too
    long) or protects the entry, the failure is printed and the entry
    stays where it is. *)
Theorem own_name_is_suffixed {rt : PyRuntime} (cfg : config) (fuel : nat)
    (fs : folder) (f : file_info) (n : Z) :
  final_serial f = Some n ->
  os_path_exists fs (old_path f) = true ->
  new_name cfg f n = old_path f ->
  (size fs + 1 < fuel)%nat ->
  exists c fs' ev,
    (1 <= c)%N
    /\ rename_entry cfg fuel fs f = Some (fs', ev)
    /\ temp_new_name cfg f n c <> old_path f
    /\ os_path_exists fs (temp_new_name cfg f n c) = false
    /\ (forall j, (1 <= j < c)%N ->
          os_path_exists fs (temp_new_name cfg f n j) = true)
    /\ (is_file_name (temp_new_name cfg f n c) = true ->
        fs !! old_path f <> Some ProtectedFile ->
        fs !! temp_new_name cfg f n c = None ->
          ev = Renamed (slice (old_path f) 0 8) (temp_new_name cfg f n c)
          /\ fs' !! old_path f = None
          /\ fs' !! temp_new_name cfg f n c = fs !! old_path f)
    /\ (is_file_name (temp_new_name cfg f n c) = false ->
          ev = Failed (old_path f) (OSError (temp_new_name cfg f n c))
          /\ fs' = fs)
    /\ (is_file_name (temp_new_name cfg f n c) = true ->
        fs !! old_path f = Some ProtectedFile ->
          ev = Failed (old_path f) (PermissionError (old_path f)) /\ fs' = fs).
Proof.
  intros Hn Hex Hown Hfuel.
  destruct (os_path_exists_lookup fs (old_path f) Hex) as [k Hold].
  destruct (rename_entry_spec cfg fuel fs f n Hn Hfuel) as (t & Hrun & Hstep).
  apply free_name_Some in Hrun as (Hfree & _ & Hsome).
  destruct Hsome as (c & Hc & -> & Hbelow); [by rewrite Hown|].
  assert (temp_new_name cfg f n c <> old_path f) as Hne by congruence.
  exists c.
  destruct (os_rename_cases fs (old_path f) _ k Hold Hfree)
    as [(Hname & Hr)|[(Hname & Hk & Hr)|(Hname & Hk & [(Heq & Hr)
       |[(_ & Ht & Hr)|[(_ & Ht & Hfl & Hr)|(_ & Ht & Hfl & Hr)]]])]];
    rewrite Hr in Hstep; eexists _, _; (split; [exact Hc|]);
    (split; [exact Hstep|]); split_and!; try done; try congruence.
  intros _ _ _. split_and!; try done.
  - by rewrite lookup_insert_ne, lookup_delete_eq.
  - by rewrite lookup_insert_eq.
Qed.

(** The same on a whole run: the only file of the folder composes its own
    name and is moved to [5.a(1).txt]. *)
Example own_name_run :
  main (rt := ascii_runtime NT) bare_config 3 (Some own_name_folder) [lit "5.a.txt"]
  = Some (inr ({[ lit "5.a(1).txt" := RegularFile ]},
               [Renamed (lit "5.a.txt") (lit "5.a(1).txt"); Summary 1 0 [5] [5] [5]])).
Proof. decide_by_vm. Qed.

Lemma own_name_is_suffixed_witness :
  exists c fs' ev,
    rename_entry (rt := ascii_runtime NT) bare_config 3 own_name_folder own_name_entry
    = Some (fs', ev)
    /\ temp_new_name bare_config own_name_entry 5 c <> lit "5.a.txt"
    /\ os_path_exists own_name_folder (temp_new_name bare_config own_name_entry 5 c)
       = false.
Proof.
  destruct (own_name_is_suffixed (rt := ascii_runtime NT) bare_config 3
              own_name_folder own_name_entry 5)
    as (c & fs' & ev & _ & H1 & H2 & H3 & _).
  - reflexivity.
  - vm_compute. reflexivity.
  - vm_compute. reflexivity.
  - vm_compute. lia.
  - exists c, fs', ev. split; [exact H1|]. split; [exact H2 | exact H3].
Defined.

(** The amendment of C10 is forced by a file whose name of 255 characters
    composes itself: the name with [(1)] has 258, [os.rename] raises, and
    the file stays where it is.  A dangling link that composes its own
    name is not reported by [os.path.exists]: the loop does not run and
    the link is renamed to the name it has. *)
Lemma long_own_name_stays :
  (new_name bare_config long_entry 5 = old_path long_entry
   /\ rename_entry (rt := ascii_runtime POSIX) bare_config 4 long_folder long_entry
      = Some (long_folder,
              Failed long_name
                     (OSError (temp_new_name bare_config long_entry 5 1))))
  /\ (new_name bare_config own_name_entry 5 = old_path own_name_entry
      /\ rename_entry (rt := ascii_runtime POSIX) bare_config 4 own_link_folder
                      own_name_entry
         = Some (own_link_folder, Renamed (lit "5.a.txt") (lit "5.a.txt"))).
Proof. split; split; decide_by_vm. Qed.

(** *** The example of the specification *)

Lemma ascii_runtime_conformant (fl : os_flavour) : ascii_conformant (ascii_runtime fl).
Proof. intros c Hc. by split_and!. Qed.

Lemma example_names_ascii : Forall ascii_str example_names.
Proof. unfold example_names, ascii_str. by repeat constructor. Qed.

Ltac example_run :=
  match goal with
  | |- exists evs, @main ?rt ?cfg ?fuel ?target ?listing = _ /\ _ =>
      let r := eval vm_compute in (@main rt cfg 1%nat target listing) in
      match r with
      | Some (inr (_, [?a; ?b; ?c; _])) =>
          exists [a; b; c]; split;
          [ apply (main_mono (rt := rt)) with 1%nat; [lia | decide_by_vm]
          | decide_by_vm ]
      end
  end.

(** C4. With separators ['.', ' '], base 0, width 3, prefix [No.] and
    connector [". "], a run on a folder that holds exactly [1.Intro.txt],
    [1.Outro.txt] and [3 Middle.txt], listed in any order, finds the
    distinct serials [1, 3], reverses them to [3, 1], builds the map
    [{1: 3, 3: 1}], and renames the three files to [No.003. Intro.txt],
    [No.003. Outro.txt] and [No.001. Middle.txt]; the two names with
    serial 3 differ, so no [(1)] is needed. *)
Theorem spec_example (rt : PyRuntime) (fuel : nat) (listing : list str) :
  ascii_conformant rt ->
  listing ≡ₚ example_names ->
  (0 < fuel)%nat ->
  build_map claim_config [1; 3] = {[ 1 := 3; 3 := 1 ]}
  /\ exists evs,
       main (rt := rt) claim_config fuel (Some example_folder) listing
       = Some (inr (example_result, evs ++ [example_summary]))
       /\ evs ≡ₚ example_renames.
Proof.
  intros Hrt Hperm Hfuel. split; [decide_by_vm|].
  rewrite (main_ascii rt claim_config Hrt).
  - generalize (@os_path rt). intros fl.
    symmetry in Hperm. apply permutations_Permutation in Hperm.
    let ps := eval vm_compute in (permutations example_names) in
    change (permutations example_names) with ps in Hperm.
    rewrite !elem_of_cons, elem_of_nil in Hperm.
    destruct fl; destruct_or!; try done; subst listing; example_run.
  - unfold ascii_str. by repeat constructor.
  - apply Forall_forall. intros x Hx. rewrite Hperm in Hx.
    revert x Hx. apply Forall_forall, example_names_ascii.
Qed.

Lemma spec_example_witness :
  exists evs,
    main (rt := ascii_runtime NT) claim_config 5 (Some example_folder) example_names
    = Some (inr (example_result, evs ++ [example_summary]))
    /\ evs ≡ₚ example_renames.
Proof.
  refine (proj2 (spec_example (ascii_runtime NT) 5 example_names _ _ _)).
  - apply ascii_runtime_conformant.
  - reflexivity.
  - lia.
Defined.

(** C1. For a strictly ascending list [U] of distinct serials and any
    base [B], the map [M] that the renamer builds has
    [M[U[i]] = B + U[n-1-i]], so that
    [M[U[i]] + M[U[n-1-i]] = 2B + U[i] + U[n-1-i]] at every index, its
    keys are the elements of [U], and it is injective: a bijection from
    [U] onto its image. *)
Theorem remap_reversal_symmetry (cfg : config) (U : list Z) :
  StronglySorted Z.lt U ->
  let M := build_map cfg U in
  let B := BASE_SERIAL cfg in
  let n := length U in
  (forall i u, U !! i = Some u ->
     exists v, U !! (n - 1 - i)%nat = Some v /\ M !! u = Some (B + v))
  /\ (forall i u v, U !! i = Some u -> U !! (n - 1 - i)%nat = Some v ->
        exists mu mv, M !! u = Some mu /\ M !! v = Some mv
                   /\ mu + mv = 2 * B + u + v)
  /\ dom M = list_to_set U
  /\ (forall u1 u2 w, M !! u1 = Some w -> M !! u2 = Some w -> u1 = u2).
Proof.
  intros Hs M B n. pose proof (StronglySorted_lt_NoDup U Hs) as Hnd.
  repeat split.
  - intros i u Hi. by apply build_map_lookup.
  - intros i u v Hi Hv.
    destruct (build_map_lookup cfg U i u Hnd Hi) as (v' & Hv' & Hu).
    assert (v' = v) as -> by (subst n; congruence).
    destruct (build_map_lookup cfg U _ v Hnd Hv) as (u' & Hu' & Hmv).
    pose proof (lookup_lt_Some _ _ _ Hi) as Hlt.
    replace (length U - 1 - (n - 1 - i))%nat with i in Hu' by (subst n; lia).
    assert (u' = u) as -> by congruence.
    exists (B + v), (B + u). repeat split; [done..|lia].
  - apply build_map_dom.
  - intros u1 u2 w H1 H2.
    apply build_map_lookup_inv in H1 as (i & v1 & Hi & Hvi & ->); [|done].
    apply build_map_lookup_inv in H2 as (j & v2 & Hj & Hvj & E); [|done].
    assert (v1 = v2) as -> by lia.
    pose proof (lookup_lt_Some _ _ _ Hi). pose proof (lookup_lt_Some _ _ _ Hj).
    pose proof (NoDup_lookup _ _ _ _ Hnd Hvi Hvj).
    assert (i = j) as -> by lia. congruence.
Qed.

Lemma remap_reversal_symmetry_witness :
  let cfg := {| SERIAL_PAD := 3; CONNECTOR := lit ". "; PREFIX_CHAR := lit "No.";
                BASE_SERIAL := 10; SEPARATORS := [46%N] |} in
  StronglySorted Z.lt [1; 3; 7]
  /\ build_map cfg [1; 3; 7] !! 1 = Some 17
  /\ build_map cfg [1; 3; 7] !! 3 = Some 13
  /\ build_map cfg [1; 3; 7] !! 7 = Some 11.
Proof.
  intros cfg.
  assert (StronglySorted Z.lt [1; 3; 7]) as Hs.
  { repeat constructor; lia. }
  split; [exact Hs|].
  destruct (remap_reversal_symmetry cfg [1; 3; 7] Hs) as (H & _).
  split; [|split].
  - destruct (H 0%nat 1 eq_refl) as (v & Hv & ->). by injection Hv as <-.
  - destruct (H 1%nat 3 eq_refl) as (v & Hv & ->). by injection Hv as <-.
  - destruct (H 2%nat 7 eq_refl) as (v & Hv & ->). by injection Hv as <-.
Defined.

Lemma assign_final_spec (cfg : config) (m : gmap Z Z) (files : list file_info) :
  (forall f, f ∈ files -> is_Some (m !! serial_num f)) ->
  exists files',
    assign_final m files = inr files'
    /\ Forall2 (fun f f' =>
         exists w, m !! serial_num f = Some w /\ f' = set_final_serial f w)
       files files'.
Proof.
  induction files as [|f files IH]; intros Hall; simpl.
  - exists []. by split.
  - destruct (Hall f) as [w Hw]; [by left|]. rewrite Hw.
    destruct IH as (files' & -> & HF).
    { intros g Hg. apply Hall. by right. }
    eexists. split; [done|]. constructor; eauto.
Qed.

Lemma serial_reverse_map_total (cfg : config) (files : list file_info) f :
  f ∈ files -> is_Some (serial_reverse_map cfg files !! serial_num f).
Proof.
  intros Hf. apply elem_of_dom. unfold serial_reverse_map.
  rewrite build_map_dom, elem_of_list_to_set, elem_of_unique_serials. eauto.
Qed.

(** C8. Whatever files were classified, the remap phase gives every file
    the final serial [M[s]] of its original serial [s] (no key is ever
    missing), so two files with equal original serials get the same
    final serial. *)
Theorem same_serial_same_final (cfg : config) (files : list file_info) :
  let M := serial_reverse_map cfg files in
  exists files',
    assign_final M files = inr files'
    /\ length files' = length files
    /\ (forall i f', files' !! i = Some f' ->
          exists f w, files !! i = Some f /\ M !! serial_num f = Some w
                   /\ f' = set_final_serial f w)
    /\ (forall f1 f2, f1 ∈ files' -> f2 ∈ files' ->
          serial_num f1 = serial_num f2 ->
          final_serial f1 = M !! serial_num f1
          /\ is_Some (final_serial f1)
          /\ final_serial f1 = final_serial f2).
Proof.
  intros M.
  destruct (assign_final_spec cfg M files) as (files' & Hrun & HF).
  { intros f Hf. by apply serial_reverse_map_total. }
  exists files'. split; [done|].
  assert (forall f', f' ∈ files' ->
            final_serial f' = M !! serial_num f' /\ is_Some (final_serial f')) as Hfin.
  { intros f' Hf'. apply list_elem_of_lookup in Hf' as [i Hi].
    destruct (Forall2_lookup_r _ _ _ _ _ HF Hi) as (f & _ & w & Hw & ->).
    simpl. rewrite Hw. eauto. }
  repeat split.
  - symmetry. by eapply Forall2_length.
  - intros i f' Hi.
    destruct (Forall2_lookup_r _ _ _ _ _ HF Hi) as (f & Hf & w & Hw & ->).
    eauto.
  - by apply Hfin.
  - by apply Hfin.
  - destruct (Hfin f1) as [-> _]; [done|]. destruct (Hfin f2) as [-> _]; [done|].
    congruence.
Qed.



(** The classifier on a few names, with the constants of the script. *)
Example classify_ideographic_comma :
  is_sequence_file (rt := ascii_runtime NT) source_config
    ([49; 50; 12289] ++ lit " notes.final.txt")%N
  = ((true, Some 12, Some (lit "notes.final"), lit ".txt"), None).
Proof. decide_by_vm. Qed.

Example classify_no_separator :
  is_sequence_file (rt := ascii_runtime NT) source_config (lit "2024report.txt")
  = ((false, None, None, lit ".txt"), None).
Proof. decide_by_vm. Qed.

Example classify_digits_only_before_extension :
  is_sequence_file (rt := ascii_runtime NT) source_config (lit "7.txt")
  = ((false, None, None, lit ".txt"), None).
Proof. decide_by_vm. Qed.

Example classify_without_separators :
  is_sequence_file (rt := ascii_runtime NT)
    {| SERIAL_PAD := 3; CONNECTOR := []; PREFIX_CHAR := []; BASE_SERIAL := 0;
       SEPARATORS := [] |}
    (lit "1.a.txt")
  = ((false, None, None, lit ".txt"), Some re_error).
Proof. decide_by_vm. Qed.

End ReSerialProofs.

(** * Properties of the timestamp editor *)
Module ReTimeProofs.
Import ReTime.

Ltac decide_by_vm := apply (bool_decide_unpack _); vm_compute; exact I.

Section editor_proofs.
Context (h : host).
Implicit Types (w : world) (s : option str).

Lemma convert_if_provided_run s fmt w :
  convert_if_provided h s fmt w = (parsed h s fmt, w).
Proof.
  destruct s as [[|c s']|]; try reflexivity.
  unfold convert_if_provided, parsed, convert_to_timestamp.
  simpl. unfold mbind, M_bind. by destruct (converted h (c :: s') fmt).
Qed.

Lemma modify_file_times_run p c m a fmt w :
  modify_file_times h p c m a fmt w =
    match files w !! p with
    | None => (inl (FileNotFoundError (not_found ++ p)), w)
    | Some Dir => (inl (IsADirectoryError (not_file ++ p)), w)
    | Some (File _ _) =>
        match parsed h c fmt with
        | inl e => (inl e, w)
        | inr nc =>
            match parsed h m fmt with
            | inl e => (inl e, w)
            | inr nm =>
                match parsed h a fmt with
                | inl e => (inl e, w)
                | inr na => apply_and_report h p c m a nc nm na w
                end
            end
        end
    end.
Proof.
  unfold modify_file_times, os_path_exists, os_path_isfile, stat.
  unfold mbind, M_bind, mret, M_ret. simpl.
  destruct (files w !! p) as [[t wr|]|] eqn:Hp; simpl; rewrite ?Hp; simpl.
  - rewrite convert_if_provided_run.
    destruct (parsed h c fmt) as [e|nc]; [done|].
    rewrite convert_if_provided_run.
    destruct (parsed h m fmt) as [e|nm]; [done|].
    rewrite convert_if_provided_run.
    by destruct (parsed h a fmt) as [e|na].
  - done.
  - done.
Qed.

(** A conversion fails with the [ValueError] of [convert_to_timestamp],
    which names the format, or with the exception of [time.mktime]. *)
Lemma parsed_inl s fmt e :
  parsed h s fmt = inl e ->
  (exists txt, e = ValueError (bad_format_1 ++ fmt ++ bad_format_2 ++ txt))
  \/ mktime_rejects h s fmt e.
Proof.
  destruct s as [[|c s']|]; simpl; try done.
  unfold converted, strptime_mktime.
  destruct (strptime h (c :: s') fmt) as [txt|dt] eqn:Hdt.
  { intros [= <-]. left. by exists txt. }
  destruct (mktime h dt) as [[]|ts] eqn:Hts; intros [= <-].
  all: try (right; exists dt; by split_and!).
  left. by eexists.
Qed.

Lemma does_not_parse_parsed s fmt :
  does_not_parse h s fmt ->
  exists txt, parsed h s fmt
              = inl (ValueError (bad_format_1 ++ fmt ++ bad_format_2 ++ txt)).
Proof.
  destruct s as [[|c s']|]; simpl; try done. intros [txt Htxt].
  unfold converted, strptime_mktime. rewrite Htxt. eauto.
Qed.

Lemma format_in_message fmt txt :
  occurs_in fmt (bad_format_1 ++ fmt ++ bad_format_2 ++ txt).
Proof. by exists bad_format_1, (bad_format_2 ++ txt). Qed.

Lemma report_run p c m a w :
  report p c m a w = (inr (), add_lines w (report_lines p c m a)).
Proof.
  unfold report, print, add_lines, report_lines, mbind, M_bind. simpl.
  by rewrite <- !app_assoc.
Qed.

Lemma apply_and_report_run p c m a nc nm na w :
  apply_and_report h p c m a nc nm na w =
    match branch h p nc nm na w with
    | (inr _, w1) => (inr (), add_lines w1 (report_lines p c m a))
    | (inl e, w1) => (inl (RuntimeError (failed ++ exn_str e)), w1)
    end.
Proof.
  unfold apply_and_report, try_except, mbind, M_bind. fold (branch h p nc nm na).
  destruct (branch h p nc nm na w) as [[e|[]] w1]; [done|].
  by rewrite report_run.
Qed.

Lemma branch_truthy p nc nm na nc' nm' na' :
  truthy nc = truthy nc' -> truthy nm = truthy nm' -> truthy na = truthy na' ->
  branch h p nc nm na = branch h p nc' nm' na'.
Proof.
  intros Hc Hm Ha. unfold branch, windows_branch, other_branch.
  by rewrite Hc, Hm, Ha.
Qed.

Lemma alter_times (fs : gmap str node) p t0 t :
  fs !! p = Some (File t0 true) ->
  alter (fun n => match n with File _ wr => File t wr | Dir => Dir end) p fs
  = <[p := File t true]> fs.
Proof.
  intros Hp. apply map_eq. intros q. destruct (decide (p = q)) as [<-|Hne].
  - by rewrite lookup_alter_eq, lookup_insert_eq, Hp.
  - by rewrite lookup_alter_ne, lookup_insert_ne.
Qed.

Lemma windows_branch_run p nc nm na w t fc fa fm :
  files w !! p = Some (File t true) ->
  final_time h nc (ctime t) = inr fc ->
  final_time h na (atime t) = inr fa ->
  final_time h nm (mtime t) = inr fm ->
  windows_branch h p nc nm na w =
    (inr (), after_set w p {| ctime := fc; atime := fa; mtime := fm |}
               [CreateFile p; GetFileTime p; SetFileTime p fc fa fm; CloseHandle p]).
Proof.
  intros Hp Hc Ha Hm.
  unfold windows_branch, win32file_CreateFile, win32file_GetFileTime,
    win32file_SetFileTime, handle_close, called, stat, set_times.
  unfold mbind, M_bind, mret, M_ret. simpl. rewrite Hp. simpl. rewrite Hp. simpl.
  unfold final_time in Hc, Ha, Hm. unfold ts_to_pywintime.
  destruct (truthy nc) as [tc|]; simpl.
  all: destruct (truthy na) as [ta|]; simpl.
  all: destruct (truthy nm) as [tm|]; simpl.
  all: rewrite ?Hc, ?Ha, ?Hm; simpl.
  all: simplify_eq; unfold after_set; simpl.
  all: rewrite (alter_times _ _ t) by done.
  all: by rewrite <- !app_assoc.
Qed.

Lemma other_branch_run p nc nm na w t :
  files w !! p = Some (File t true) ->
  other_branch h p nc nm na w = (inr (), after_utime h w p t nc nm na).
Proof.
  intros Hp.
  unfold other_branch, os_utime, called, stat, set_times, print, time_time,
    after_utime, utime_access, utime_modify.
  unfold mbind, M_bind, mret, M_ret.
  destruct (truthy nc) as [tc|]; simpl.
  all: destruct (truthy na) as [ta|]; simpl.
  all: destruct (truthy nm) as [tm|]; simpl.
  all: rewrite Hp; simpl.
  all: rewrite (alter_times _ _ t) by done.
  all: rewrite ?app_nil_r, ?Nat.add_0_r; try done.
  all: repeat f_equal; lia.
Qed.

(** Leaving out the strings that parse to zero changes no conversion
    result as far as its truth goes. *)
Lemma parsed_without_zero s fmt :
  match parsed h s fmt with
  | inl e => parsed h (without_zero h s fmt) fmt = inl e
  | inr o => exists o', parsed h (without_zero h s fmt) fmt = inr o'
                     /\ truthy o' = truthy o
  end.
Proof.
  unfold without_zero, parses_to_zero, parsed, converted.
  destruct s as [[|c s']|]; simpl; eauto.
  destruct (strptime_mktime h (c :: s') fmt) as [e|ts] eqn:E; simpl.
  - rewrite E. by destruct e.
  - destruct (Z.eqb_spec ts 0) as [->|Hts].
    + by exists None.
    + rewrite E. exists (Some ts). split; [done|]. simpl.
      by destruct (Z.eqb_spec ts 0).
Qed.

Lemma parses_to_zero_parsed s fmt :
  parses_to_zero h s fmt = true -> parsed h s fmt = inr (Some 0).
Proof.
  unfold parses_to_zero, parsed, converted. destruct s as [[|c s']|]; try done.
  destruct (strptime_mktime h (c :: s') fmt) as [e|ts]; [done|].
  by intros ->%Z.eqb_eq.
Qed.

Lemma zero_or_absent_parsed s fmt :
  zero_or_absent h s fmt -> exists o, parsed h s fmt = inr o /\ truthy o = None.
Proof.
  intros [Hs|Hs].
  - exists None. by destruct s as [[|c s']|].
  - exists (Some 0). by rewrite parses_to_zero_parsed.
Qed.

Lemma warned_add_report w p c m a :
  warned (add_lines w (report_lines p c m a)) <-> warned w.
Proof.
  unfold warned, add_lines, report_lines. simpl. rewrite elem_of_app.
  split; [|by left]. intros [?|Hin]; [done|].
  rewrite !elem_of_cons, elem_of_nil in Hin. naive_solver.
Qed.

Lemma other_branch_stdout p nc nm na w :
  stdout (other_branch h p nc nm na w).2
  = stdout w ++ match truthy nc with
                | Some _ => [CreateIgnoredWarning]
                | None => []
                end.
Proof.
  unfold other_branch, os_utime, called, stat, set_times, print, time_time.
  unfold mbind, M_bind, mret, M_ret, raise.
  destruct (truthy nc) as [tc|]; simpl.
  all: destruct (truthy na) as [ta|]; simpl.
  all: destruct (truthy nm) as [tm|]; simpl.
  all: destruct (files w !! p) as [[t [|]|]|]; simpl.
  all: by rewrite ?app_nil_r.
Qed.

(** A call and the same call without the strings that parse to zero. *)
Lemma without_zero_same_effects p c m a fmt w :
  let run := modify_file_times h p c m a fmt w in
  let run0 := modify_file_times h p (without_zero h c fmt)
                (without_zero h m fmt) (without_zero h a fmt) fmt w in
  run.1 = run0.1 /\ effects run.2 = effects run0.2
  /\ (warned run.2 <-> warned run0.2).
Proof.
  intros run run0. subst run run0. rewrite !modify_file_times_run.
  destruct (files w !! p) as [[t wr|]|]; [|done..].
  pose proof (parsed_without_zero c fmt) as Hc.
  destruct (parsed h c fmt) as [e|nc]; [by rewrite Hc|].
  destruct Hc as (nc' & -> & Hc).
  pose proof (parsed_without_zero m fmt) as Hm.
  destruct (parsed h m fmt) as [e|nm]; [by rewrite Hm|].
  destruct Hm as (nm' & -> & Hm).
  pose proof (parsed_without_zero a fmt) as Ha.
  destruct (parsed h a fmt) as [e|na]; [by rewrite Ha|].
  destruct Ha as (na' & -> & Ha).
  rewrite !apply_and_report_run.
  rewrite (branch_truthy p nc' nm' na' nc nm na) by done.
  destruct (branch h p nc nm na w) as [[e|[]] w1]; [done|].
  simpl. split; [done|]. split; [done|]. by rewrite !warned_add_report.
Qed.

End editor_proofs.

(** C6, as amended.  When a time string that is given does not parse
    under the format, the call raises and leaves the world as it was: no
    platform call has been made, nothing is printed and no timestamp has
    changed.  On an existing regular file the exception is the
    [ValueError] of [convert_to_timestamp], whose message contains the
    format, unless [time.mktime] has raised another exception on a string
    that is converted before the one that does not parse (the creation
    time; or the modification time, once the creation time is
    converted): that exception then leaves the call as it is. *)
Theorem invalid_time_raises_before_mutation (h : host) (p : str)
    (c m a : option str) (fmt : str) (w : world) :
  does_not_parse h c fmt \/ does_not_parse h m fmt \/ does_not_parse h a fmt ->
  (exists e, modify_file_times h p c m a fmt w = (inl e, w))
  /\ (forall t wr, files w !! p = Some (File t wr) ->
        (exists msg, modify_file_times h p c m a fmt w = (inl (ValueError msg), w)
                  /\ occurs_in fmt msg)
        \/ (exists e,
              (mktime_rejects h c fmt e
               \/ (mktime_rejects h m fmt e /\ ~ does_not_parse h c fmt))
              /\ modify_file_times h p c m a fmt w = (inl e, w))).
Proof.
  intros Hbad. rewrite modify_file_times_run.
  assert (exists e,
            match parsed h c fmt with
            | inl e => (inl e, w)
            | inr nc =>
                match parsed h m fmt with
                | inl e => (inl e, w)
                | inr nm =>
                    match parsed h a fmt with
                    | inl e => (inl e, w)
                    | inr na => apply_and_report h p c m a nc nm na w
                    end
                end
            end = (inl e, w)
            /\ ((exists msg, e = ValueError msg /\ occurs_in fmt msg)
                \/ mktime_rejects h c fmt e
                \/ (mktime_rejects h m fmt e /\ ~ does_not_parse h c fmt)))
    as (e & Hrun & He).
  { destruct (parsed h c fmt) as [e|nc] eqn:Hc.
    { exists e. split; [done|].
      apply parsed_inl in Hc as [[txt ->]|Hc]; [left|by right; left].
      eexists. split; [done|]. apply format_in_message. }
    assert (~ does_not_parse h c fmt) as Hcok.
    { intros [txt Hno]%does_not_parse_parsed. congruence. }
    destruct (parsed h m fmt) as [e|nm] eqn:Hm.
    { exists e. split; [done|].
      apply parsed_inl in Hm as [[txt ->]|Hm]; [left|by right; right].
      eexists. split; [done|]. apply format_in_message. }
    destruct Hbad as [Hb|[Hb|Hb]]; [done| |].
    { apply does_not_parse_parsed in Hb as [txt Hb]. congruence. }
    apply does_not_parse_parsed in Hb as [txt ->].
    eexists. split; [done|]. left. eexists. split; [done|].
    apply format_in_message. }
  split.
  - destruct (files w !! p) as [[t wr|]|] eqn:Hp; eauto.
  - intros t wr ->. rewrite Hrun.
    destruct He as [(msg & -> & Hmsg)|He]; [left; eauto|right; eauto].
Qed.

Lemma invalid_time_raises_before_mutation_witness :
  exists msg,
    modify_file_times utc_windows sample_path (Some (lit "yesterday")) None None
                      default_format sample_world
    = (inl (ValueError msg), sample_world)
    /\ occurs_in default_format msg.
Proof.
  destruct (proj2 (invalid_time_raises_before_mutation utc_windows sample_path
              (Some (lit "yesterday")) None None default_format sample_world
              (or_introl (ex_intro _ no_match eq_refl)))
            sample_times true eq_refl)
    as [H|(e & [(dt & Hdt & _)|[[] _]] & _)].
  - exact H.
  - vm_compute in Hdt. discriminate.
Defined.

(** The amendment of C6 is forced by a call on a Windows machine: the
    creation time is a day of 1960, for which [time.mktime] raises
    [OverflowError], and the modification time does not parse.  The call
    raises the [OverflowError], not the [ValueError] of the format. *)
Lemma earlier_overflow_is_raised :
  does_not_parse utc_windows (Some (lit "yesterday")) default_format
  /\ modify_file_times utc_windows sample_path (Some before_epoch_str)
       (Some (lit "yesterday")) None default_format sample_world
     = (inl (OverflowError out_of_range), sample_world).
Proof.
  split; [by exists no_match|]. decide_by_vm.
Qed.

(** The creation time alone, on Windows, when its timestamp is not zero:
    the converted time is written with the file's own access and
    modification times. *)
Lemma windows_create_only (h : host) (p s : str) (fmt : str) (w : world)
    (t : file_times) (ts fc : Z) :
  platform_system h = lit "Windows" ->
  files w !! p = Some (File t true) ->
  parsed h (Some s) fmt = inr (Some ts) ->
  ts <> 0 ->
  fromtimestamp_Time h ts = inr fc ->
  modify_file_times h p (Some s) None None fmt w
  = (inr (),
     add_lines
       (after_set w p {| ctime := fc; atime := atime t; mtime := mtime t |}
          [CreateFile p; GetFileTime p;
           SetFileTime p fc (atime t) (mtime t); CloseHandle p])
       (report_lines p (Some s) None None)).
Proof.
  intros Hsys Hp Hparse Hts Hconv.
  rewrite modify_file_times_run, Hp, Hparse.
  change (parsed h None fmt) with (@inr exn _ (@None Z)). cbv beta iota.
  rewrite apply_and_report_run. unfold branch.
  rewrite bool_decide_eq_true_2 by done.
  rewrite (windows_branch_run h p (Some ts) None None w t fc (atime t) (mtime t));
    try done.
  unfold final_time. simpl. by destruct (Z.eqb_spec ts 0).
Qed.

(** Elsewhere, with modification and access times whose timestamps are
    not zero: both are written as given, nothing is read from the clock,
    and a creation time that is not zero prints the warning. *)
Lemma other_platform_given_times (h : host) (p : str) (c : option str)
    (sm sa : str) (fmt : str) (w : world) (t : file_times) (nc : option Z)
    (tm ta : Z) :
  platform_system h <> lit "Windows" ->
  files w !! p = Some (File t true) ->
  parsed h c fmt = inr nc ->
  parsed h (Some sm) fmt = inr (Some tm) -> tm <> 0 ->
  parsed h (Some sa) fmt = inr (Some ta) -> ta <> 0 ->
  let run := modify_file_times h p c (Some sm) (Some sa) fmt w in
  run.1 = inr ()
  /\ files run.2
     = <[p := File {| ctime := ctime t; atime := ta; mtime := tm |} true]> (files w)
  /\ calls run.2 = calls w ++ [utime p ta tm]
  /\ ticks run.2 = ticks w
  /\ (truthy nc <> None -> warned run.2).
Proof.
  intros Hsys Hp Hc Hm Htm Ha Hta run. subst run.
  rewrite modify_file_times_run, Hp, Hc, Hm, Ha.
  rewrite apply_and_report_run. unfold branch.
  rewrite bool_decide_eq_false_2 by done.
  rewrite (other_branch_run h p nc (Some tm) (Some ta) w t) by done. simpl.
  unfold utime_access, utime_modify. simpl.
  destruct (Z.eqb_spec ta 0) as [|_]; [done|].
  destruct (Z.eqb_spec tm 0) as [|_]; [done|]. simpl.
  split_and!; try done; [lia|].
  intros Hnc. unfold warned. simpl. rewrite !elem_of_app.
  destruct (truthy nc); [|done]. left. right. by left.
Qed.

(** C5, at the epoch.  On a Windows machine whose local time is UTC, the
    creation time [1970-01-01 00:00:00] is given alone: the call reports
    success and prints the string as the new creation time, but it has
    written the file's old creation time back. *)
Theorem epoch_creation_time_not_written :
  modify_file_times utc_windows sample_path (Some epoch_str) None None
                    default_format sample_world
  = (inr (),
     {| files := {[ sample_path := File {| ctime := 100; atime := 200;
                                           mtime := 300 |} true ]};
        ticks := 0;
        stdout := [Success; PathLine sample_path; CreateLine (Some epoch_str);
                   ModifyLine None; AccessLine None];
        calls := [CreateFile sample_path; GetFileTime sample_path;
                  SetFileTime sample_path 100 200 300;
                  CloseHandle sample_path] |}).
Proof. decide_by_vm. Qed.

(** The same call with the time of the script's own example writes the
    creation time. *)
Example example_creation_time_written :
  modify_file_times utc_windows sample_path (Some example_str) None None
                    default_format sample_world
  = (inr (),
     {| files := {[ sample_path := File {| ctime := 133170768000000000;
                                           atime := 200; mtime := 300 |} true ]};
        ticks := 0;
        stdout := [Success; PathLine sample_path; CreateLine (Some example_str);
                   ModifyLine None; AccessLine None];
        calls := [CreateFile sample_path; GetFileTime sample_path;
                  SetFileTime sample_path 133170768000000000 200 300;
                  CloseHandle sample_path] |}).
Proof. decide_by_vm. Qed.

(** C7, at the epoch.  On a Linux machine whose local time is UTC, the
    creation and modification times [1970-01-01 00:00:00] and the access
    time [2023-01-01 20:00:00] are given: the access time is written as
    given, but the modification time becomes the reading of the clock,
    and no warning about the creation time is printed. *)
Theorem epoch_modification_time_not_written :
  modify_file_times utc_linux sample_path (Some epoch_str) (Some epoch_str)
                    (Some example_str) default_format sample_world
  = (inr (),
     {| files := {[ sample_path := File {| ctime := 100; atime := 1672603200;
                                           mtime := 1700000000 |} true ]};
        ticks := 1;
        stdout := [Success; PathLine sample_path; CreateLine (Some epoch_str);
                   ModifyLine (Some epoch_str); AccessLine (Some example_str)];
        calls := [utime sample_path 1672603200 1700000000] |}).
Proof. decide_by_vm. Qed.

(** The same call with the example time everywhere does what C7 says. *)
Example example_times_written :
  modify_file_times utc_linux sample_path (Some example_str) (Some example_str)
                    (Some example_str) default_format sample_world
  = (inr (),
     {| files := {[ sample_path := File {| ctime := 100; atime := 1672603200;
                                           mtime := 1672603200 |} true ]};
        ticks := 0;
        stdout := [CreateIgnoredWarning; Success; PathLine sample_path;
                   CreateLine (Some example_str); ModifyLine (Some example_str);
                   AccessLine (Some example_str)];
        calls := [utime sample_path 1672603200 1672603200] |}).
Proof. decide_by_vm. Qed.

(** C9. A time string that parses to the timestamp zero is treated as an
    absent one, because the function tests the timestamp for truth: the
    call returns the same result, makes the same platform calls, reads
    the clock as often and leaves the same files as the call without that
    string, and prints the warning in the same cases.  So on Windows the
    original timestamps are written back instead of zero, elsewhere the
    clock is used instead of zero, and a creation time that parses to
    zero prints no warning. *)
Theorem zero_timestamp_is_absent (h : host) (p : str) (c m a : option str)
    (fmt : str) (w : world) :
  let run := modify_file_times h p c m a fmt w in
  let run0 := modify_file_times h p (without_zero h c fmt)
                (without_zero h m fmt) (without_zero h a fmt) fmt w in
  (run.1 = run0.1 /\ effects run.2 = effects run0.2
   /\ (warned run.2 <-> warned run0.2))
  /\ (forall t, files w !! p = Some (File t true) ->
        zero_or_absent h c fmt -> zero_or_absent h m fmt ->
        zero_or_absent h a fmt ->
        (platform_system h = lit "Windows" ->
           run.1 = inr () /\ files run.2 = files w
           /\ calls run.2 = calls w ++
                [CreateFile p; GetFileTime p;
                 SetFileTime p (ctime t) (atime t) (mtime t); CloseHandle p])
        /\ (platform_system h <> lit "Windows" ->
              run.1 = inr ()
              /\ files run.2
                 = <[p := File {| ctime := ctime t; atime := clock h (ticks w);
                                  mtime := clock h (S (ticks w)) |} true]> (files w)
              /\ calls run.2 = calls w ++
                   [utime p (clock h (ticks w)) (clock h (S (ticks w)))]))
  /\ (parses_to_zero h c fmt = true -> platform_system h <> lit "Windows" ->
        (warned run.2 <-> warned w)).
Proof.
  intros run run0. split; [apply without_zero_same_effects|]. split.
  - intros t Hp Hc Hm Ha. subst run. rewrite modify_file_times_run, Hp.
    destruct (zero_or_absent_parsed h c fmt Hc) as (nc & -> & Hnc).
    destruct (zero_or_absent_parsed h m fmt Hm) as (nm & -> & Hnm).
    destruct (zero_or_absent_parsed h a fmt Ha) as (na & -> & Hna).
    rewrite apply_and_report_run. unfold branch. split; intros Hsys.
    + rewrite bool_decide_eq_true_2 by done.
      rewrite (windows_branch_run h p nc nm na w t (ctime t) (atime t) (mtime t));
        try done; unfold final_time; rewrite ?Hnc, ?Hnm, ?Hna; try done.
      simpl. split; [done|]. split; [|done].
      apply insert_id. by destruct t.
    + rewrite bool_decide_eq_false_2 by done.
      rewrite (other_branch_run h p nc nm na w t) by done. simpl.
      unfold utime_access, utime_modify. rewrite Hnm, Hna. by simpl.
  - intros Hc Hsys. subst run. rewrite modify_file_times_run.
    destruct (files w !! p) as [[t wr|]|]; [|done..].
    rewrite (parses_to_zero_parsed h c fmt Hc).
    destruct (parsed h m fmt) as [e|nm]; [done|].
    destruct (parsed h a fmt) as [e|na]; [done|].
    rewrite apply_and_report_run. unfold branch.
    rewrite bool_decide_eq_false_2 by done.
    pose proof (other_branch_stdout h p (Some 0) nm na w) as Hout.
    destruct (other_branch h p (Some 0) nm na w) as [[e|[]] w1]; simpl in *.
    + unfold warned. by rewrite Hout, app_nil_r.
    + rewrite warned_add_report. unfold warned. by rewrite Hout, app_nil_r.
Qed.

Lemma zero_timestamp_is_absent_witness :
  let run := modify_file_times utc_linux sample_path (Some epoch_str)
               (Some epoch_str) None default_format sample_world in
  run.1 = inr ()
  /\ files run.2
     = <[sample_path := File {| ctime := 100; atime := 1700000000;
                                mtime := 1700000001 |} true]> (files sample_world)
  /\ calls run.2 = [utime sample_path 1700000000 1700000001]
  /\ (warned run.2 <-> warned sample_world).
Proof.
  intros run.
  destruct (zero_timestamp_is_absent utc_linux sample_path (Some epoch_str)
              (Some epoch_str) None default_format sample_world)
    as (_ & Hzero & Hwarn).
  destruct (Hzero sample_times) as [_ Hother].
  - reflexivity.
  - right. reflexivity.
  - right. reflexivity.
  - left. reflexivity.
  - destruct Hother as (H1 & H2 & H3).
    + discriminate.
    + split; [exact H1|]. split; [exact H2|]. split; [exact H3|].
      apply Hwarn; [reflexivity | discriminate].
Defined.

End ReTimeProofs.


(** * Further properties of the serial renamer *)
Module ReSerialMore.
Import ReSerial ReSerialProofs.

(** In a strictly ascending list, positions and values are ordered alike. *)
Lemma sorted_lookup_lt (U : list Z) (i j : nat) (a b : Z) :
  StronglySorted Z.lt U -> U !! i = Some a -> U !! j = Some b ->
  (i < j)%nat -> a < b.
Proof.
  intros Hs. revert i j. induction Hs as [|x l Hs IH Hall]; intros i j Hi Hj Hlt.
  - done.
  - destruct j as [|j]; [lia|]. destruct i as [|i]; simpl in *.
    + injection Hi as <-. rewrite Forall_forall in Hall.
      apply Hall. by eapply list_elem_of_lookup_2.
    + apply (IH i j); [done..|lia].
Qed.

Lemma sorted_lookup_lt_inv (U : list Z) (i j : nat) (a b : Z) :
  StronglySorted Z.lt U -> U !! i = Some a -> U !! j = Some b ->
  a < b -> (i < j)%nat.
Proof.
  intros Hs Hi Hj Hlt.
  destruct (Nat.lt_trichotomy i j) as [?|[->|Hji]]; [done| |].
  - assert (a = b) by congruence. lia.
  - pose proof (sorted_lookup_lt U j i b a Hs Hj Hi Hji). lia.
Qed.

(** X1. The list of distinct serials that step 4 sorts is strictly
    ascending and holds exactly the serials of the classified files. *)
Theorem unique_serials_spec (files : list file_info) :
  StronglySorted Z.lt (unique_serials files)
  /\ (forall s, s ∈ unique_serials files <->
                exists f, f ∈ files /\ serial_num f = s)
  /\ (files <> [] -> unique_serials files <> []).
Proof.
  split; [apply unique_serials_sorted|]. split; [apply elem_of_unique_serials|].
  intros Hne Hnil. destruct files as [|f files]; [done|].
  assert (serial_num f ∈ unique_serials (f :: files)) as Hin.
  { apply elem_of_unique_serials. exists f. split; [by left | done]. }
  rewrite Hnil in Hin. by apply elem_of_nil in Hin.
Qed.

(** X2. The map of step 4 reverses the order of the serials: of two
    distinct original serials the smaller one gets the larger new serial. *)
Theorem remap_reverses_order (cfg : config) (U : list Z) (u v mu mv : Z) :
  StronglySorted Z.lt U ->
  build_map cfg U !! u = Some mu ->
  build_map cfg U !! v = Some mv ->
  u < v -> mv < mu.
Proof.
  intros Hs Hu Hv Hlt. pose proof (StronglySorted_lt_NoDup U Hs) as Hnd.
  apply build_map_lookup_inv in Hu as (i & a & Hi & Ha & ->); [|done].
  apply build_map_lookup_inv in Hv as (j & b & Hj & Hb & ->); [|done].
  pose proof (sorted_lookup_lt_inv U i j u v Hs Hi Hj Hlt) as Hij.
  pose proof (lookup_lt_Some _ _ _ Hj) as Hjn.
  assert (b < a); [|lia].
  apply (sorted_lookup_lt U (length U - 1 - j) (length U - 1 - i)); [done..|lia].
Qed.

Lemma remap_reverses_order_witness :
  build_map source_config [2; 5; 9] !! 2 = Some 9
  /\ build_map source_config [2; 5; 9] !! 9 = Some 2
  /\ 2 < 9.
Proof.
  assert (build_map source_config [2; 5; 9] !! 2 = Some 9) as H2 by decide_by_vm.
  assert (build_map source_config [2; 5; 9] !! 9 = Some 2) as H9 by decide_by_vm.
  split; [exact H2|]. split; [exact H9|].
  refine (remap_reverses_order source_config [2; 5; 9] 2 9 9 2 _ H2 H9 _).
  - repeat constructor; lia.
  - lia.
Defined.

(** X3. With base 0 the map of step 4 is its own inverse and its values
    are again the original serials: remapping twice gives every serial
    back. *)
Theorem remap_base_zero_involution (cfg : config) (U : list Z) (u mu : Z) :
  BASE_SERIAL cfg = 0 ->
  StronglySorted Z.lt U ->
  build_map cfg U !! u = Some mu ->
  mu ∈ U /\ build_map cfg U !! mu = Some u.
Proof.
  intros HB Hs Hu. pose proof (StronglySorted_lt_NoDup U Hs) as Hnd.
  apply build_map_lookup_inv in Hu as (i & a & Hi & Ha & ->); [|done].
  rewrite HB, Z.add_0_l.
  split; [by eapply list_elem_of_lookup_2|].
  destruct (build_map_lookup cfg U _ a Hnd Ha) as (b & Hb & ->).
  pose proof (lookup_lt_Some _ _ _ Hi) as Hlt.
  replace (length U - 1 - (length U - 1 - i))%nat with i in Hb by lia.
  rewrite HB. f_equal. assert (b = u) by congruence. lia.
Qed.

Lemma remap_base_zero_involution_witness :
  5 ∈ [1; 3; 5] /\ build_map source_config [1; 3; 5] !! 5 = Some 1.
Proof.
  refine (remap_base_zero_involution source_config [1; 3; 5] 1 5 _ _ _).
  - reflexivity.
  - repeat constructor; lia.
  - decide_by_vm.
Defined.

(** *** The answers of the classifier *)
Section classifier_answers.
Context {rt : PyRuntime} (cfg : config).
Implicit Types (s : str) (sp : char -> bool).

Lemma decimal_number_nonneg s : 0 <= decimal_number s.
Proof.
  induction s as [|c s IH]; simpl; [lia|].
  assert (0 <= default 0 (decimal_value c)).
  { destruct (decimal_value c) as [v|] eqn:Hv; simpl; [|lia].
    apply decimal_value_range in Hv. lia. }
  assert (0 <= 10 ^ Z.of_nat (length s)) by (apply Z.pow_nonneg; lia).
  nia.
Qed.

Lemma digits_then_head s :
  is_Some (digits_then cfg s) -> exists c, head s = Some c /\ is_decimal c = true.
Proof.
  destruct s as [|c s]; simpl; [by intros [? ?]|].
  destruct (is_decimal c) eqn:Hc; [by exists c|]. by intros [? ?].
Qed.

Lemma digits_then_has_separator s :
  is_Some (digits_then cfg s) -> exists c, c ∈ s /\ in_separators cfg c = true.
Proof.
  intros [[g1 g2] Hrun].
  apply digits_then_Some in Hrun as (seps & tail & (-> & _ & _ & Hne & Hall & _) & _).
  destruct seps as [|c seps]; [done|]. apply Forall_cons in Hall as [Hc _].
  exists c. split; [|by destruct (in_separators cfg c)].
  rewrite !elem_of_app. right. left. by left.
Qed.

(** The classifier says no whenever the matcher does. *)
Lemma is_sequence_file_no_match filename :
  digits_then cfg (splitext filename).1 = None ->
  (is_sequence_file cfg filename).1 = (false, None, None, (splitext filename).2).
Proof.
  intros Hrun. unfold is_sequence_file.
  destruct (splitext filename) as [name ext]. simpl in *.
  unfold try_block, re_match. rewrite Hrun. by destruct (SEPARATORS cfg).
Qed.

End classifier_answers.

(** X4. Every answer of [is_sequence_file] is well formed: either the
    flag is [True], with a serial that is not negative, a remainder that
    neither begins nor ends with whitespace, and no exception printed, or
    the flag is [False] with neither serial nor remainder; in both cases
    the last component is the extension that [os.path.splitext] cut off. *)
Theorem classifier_answer_shape {rt : PyRuntime} (cfg : config) (filename : str) :
  (exists n c,
      is_sequence_file cfg filename
      = ((true, Some n, Some c, (splitext filename).2), None)
      /\ 0 <= n
      /\ (forall x, head c = Some x \/ last c = Some x -> isspace_char x = false))
  \/ (is_sequence_file cfg filename).1
     = (false, None, None, (splitext filename).2).
Proof.
  destruct (digits_then cfg (splitext filename).1) as [[g1 g2]|] eqn:Hrun;
    [|right; by apply is_sequence_file_no_match].
  unfold is_sequence_file. destruct (splitext filename) as [name ext]. simpl in *.
  unfold try_block, re_match. rewrite Hrun.
  destruct (SEPARATORS cfg) as [|sep0 seps0]; [by right|].
  destruct (digits_then_Some cfg name g1 g2 Hrun)
    as (seps & tail & (_ & Hne & Hall & _) & _).
  rewrite isdigit_decimal, int_of_digits_decimal by done.
  destruct (_ <? _)%nat; [by right|]. simpl. left.
  exists (decimal_number g1), (strip isspace_char g2).
  split; [done|]. split; [apply decimal_number_nonneg|].
  intros x Hx. by eapply strip_ends.
Qed.

(** X5. A file name is rejected when its name without extension does not
    begin with a decimal digit, and when it holds no separator: the
    pattern is anchored at the start and needs at least one separator
    after the digits. *)
Theorem classifier_rejects {rt : PyRuntime} (cfg : config) (filename : str) :
  (forall c, head (splitext filename).1 = Some c -> is_decimal c = false)
  \/ Forall (fun c => in_separators cfg c = false) (splitext filename).1 ->
  (is_sequence_file cfg filename).1 = (false, None, None, (splitext filename).2).
Proof.
  intros Hno. apply is_sequence_file_no_match.
  destruct (digits_then cfg (splitext filename).1) as [r|] eqn:Hrun; [|done].
  exfalso. destruct Hno as [Hhead|Hseps].
  - destruct (digits_then_head cfg (splitext filename).1) as (c & Hc & Hd); [eauto|].
    rewrite (Hhead c Hc) in Hd. done.
  - destruct (digits_then_has_separator cfg (splitext filename).1)
      as (c & Hc & Hsep); [eauto|].
    rewrite Forall_forall in Hseps. rewrite (Hseps c Hc) in Hsep. done.
Qed.

Lemma classifier_rejects_witness :
  (is_sequence_file (rt := ascii_runtime NT) source_config (lit "2024report.txt")).1
  = (false, None, None, lit ".txt").
Proof.
  refine (classifier_rejects (rt := ascii_runtime NT) source_config
            (lit "2024report.txt") _).
  right. vm_compute. repeat constructor.
Defined.

(** *** Names that the renamer composes *)

Lemma splitext_head {rt : PyRuntime} (p : str) :
  head (splitext p).1 = head p.
Proof.
  unfold splitext.
  destruct (_ && _) eqn:Hcond; [|done]. simpl.
  apply andb_prop in Hcond as [_ Hex]. unfold slice in Hex.
  destruct (Z.to_nat (rfind is_dot p)) as [|k]; [|by destruct p].
  by rewrite Nat.sub_0_l, take_0 in Hex.
Qed.

(** X6. When the prefix begins with a character that is not a decimal
    digit (as [No.] does), no name that the renamer composes, with or
    without a counter, is a sequence file: a later run leaves the renamed
    files alone. *)
Theorem composed_names_rejected {rt : PyRuntime} (cfg : config)
    (f : file_info) (n : Z) (c0 : char) (rest : str) :
  PREFIX_CHAR cfg = c0 :: rest ->
  is_decimal c0 = false ->
  (is_sequence_file cfg (new_name cfg f n)).1
  = (false, None, None, (splitext (new_name cfg f n)).2)
  /\ forall counter,
       (is_sequence_file cfg (temp_new_name cfg f n counter)).1
       = (false, None, None, (splitext (temp_new_name cfg f n counter)).2).
Proof.
  intros Hprefix Hc0.
  assert (forall p, head p = Some c0 ->
            (is_sequence_file cfg p).1 = (false, None, None, (splitext p).2)) as H.
  { intros p Hp. apply is_sequence_file_no_match.
    destruct (digits_then cfg (splitext p).1) as [r|] eqn:Hrun; [|done].
    destruct (digits_then_head cfg (splitext p).1) as (c & Hc & Hd); [eauto|].
    rewrite splitext_head in Hc.
    pose proof (eq_trans (eq_sym Hc) Hp) as E. injection E as ->.
    rewrite Hc0 in Hd. discriminate. }
  split; [|intros counter]; apply H.
  - unfold new_name. by rewrite Hprefix.
  - unfold temp_new_name. by rewrite Hprefix.
Qed.

Lemma composed_names_rejected_witness :
  (is_sequence_file (rt := ascii_runtime NT) source_config
     (new_name source_config collision_entry 1)).1
  = (false, None, None,
     (splitext (rt := ascii_runtime NT) (new_name source_config collision_entry 1)).2).
Proof.
  refine (proj1 (composed_names_rejected (rt := ascii_runtime NT) source_config
                   collision_entry 1 78%N (lit "o.") _ _)).
  - reflexivity.
  - reflexivity.
Defined.

(** *** The padded serial *)
Section padded_serial.
Context (rt : PyRuntime) (Hrt : ascii_conformant rt).

Lemma pretty_N_char_code (d : N) :
  (d < 10)%N -> N_of_ascii (pretty_N_char d) = (48 + d)%N.
Proof.
  intros Hd.
  do 10 (destruct d as [|d _] using N.peano_ind; [reflexivity|];
         try (rewrite <- N.add_1_r in *)).
  lia.
Qed.

Lemma digit_code_value (d : N) :
  (d < 10)%N -> decimal_value (48 + d)%N = Some (Z.of_N d).
Proof.
  intros Hd. destruct (Hrt (48 + d)%N) as (-> & _); [lia|].
  unfold ascii_decimal.
  rewrite (proj2 (N.leb_le 48 (48 + d))), (proj2 (N.leb_le (48 + d) 57)) by lia.
  simpl. f_equal. lia.
Qed.

Lemma zero_code_value : decimal_value 48%N = Some 0.
Proof. apply (digit_code_value 0). lia. Qed.

Lemma lit_String (a : ascii) (s : string) : lit (String a s) = N_of_ascii a :: lit s.
Proof. done. Qed.

Lemma length_lit (s : string) : length (lit s) = String.length s.
Proof. induction s as [|a s IH]; [done|]. rewrite lit_String. simpl. by rewrite IH. Qed.

Lemma decimal_number_pretty_go (x : N) (s : string) :
  decimal_number (lit (pretty_N_go x s))
  = Z.of_N x * 10 ^ Z.of_nat (String.length s) + decimal_number (lit s)
  /\ (Forall is_decimal (lit s) -> Forall is_decimal (lit (pretty_N_go x s))).
Proof.
  revert s. induction (N.lt_wf_0 x) as [x _ IH]. intros s.
  destruct (decide (x = 0%N)) as [->|Hx].
  - rewrite pretty_N_go_0. split; [lia | done].
  - rewrite pretty_N_go_step by lia.
    assert (x `div` 10 < x)%N as Hlt by (apply N.div_lt; lia).
    assert (x `mod` 10 < 10)%N as Hd by (apply N.mod_lt; lia).
    destruct (IH _ Hlt (String (pretty_N_char (x `mod` 10)) s)) as [Hval Hdec].
    rewrite Hval. rewrite lit_String, pretty_N_char_code by done.
    split.
    + simpl. rewrite digit_code_value by done. simpl.
      rewrite length_lit. rewrite Nat2Z.inj_succ, Z.pow_succ_r by lia.
      pose proof (N.div_mod x 10). lia.
    + intros Hs. apply Hdec. rewrite lit_String, pretty_N_char_code by done.
      constructor; [|done]. unfold is_decimal.
      rewrite digit_code_value by done. by apply bool_decide_pack.
Qed.

(** [int(str(k))] is [k]. *)
Lemma str_of_N_reads_back (k : N) :
  str_of_N k <> [] /\ Forall is_decimal (str_of_N k)
  /\ decimal_number (str_of_N k) = Z.of_N k.
Proof.
  unfold str_of_N, pretty, pretty_N. destruct (decide (k = 0%N)) as [->|Hk].
  - change (lit "0") with [48%N]. split; [done|]. split.
    + repeat constructor. unfold is_decimal.
      rewrite zero_code_value. by apply bool_decide_pack.
    + simpl. rewrite zero_code_value. simpl. lia.
  - destruct (decimal_number_pretty_go k "") as [Hval Hdec].
    split_and!.
    + intros Hnil. rewrite Hnil in Hval. simpl in Hval. lia.
    + apply Hdec. constructor.
    + rewrite Hval. simpl. lia.
Qed.

Lemma decimal_number_zeros (k : nat) (s : str) :
  decimal_number (replicate k 48%N ++ s) = decimal_number s.
Proof.
  induction k as [|k IH]; [done|]. simpl.
  rewrite zero_code_value. simpl. by rewrite IH.
Qed.

End padded_serial.

(** X7. For a serial that is not negative, [format_serial] pads with
    zeros to the configured width and never cuts digits off: the result is
    at least as long as the width, ends with the decimal digits of the
    serial, and [int] reads it back as the same serial; so does the call
    with its guard on the number of digits, as long as the text has no
    more than 4300 of them. *)
Theorem format_serial_reads_back (rt : PyRuntime) (cfg : config) (n : Z) :
  ascii_conformant rt ->
  0 <= n ->
  (SERIAL_PAD cfg <= length (format_serial cfg n))%nat
  /\ str_of_N (Z.to_N n) `suffix_of` format_serial cfg n
  /\ int (format_serial cfg n) = inr n
  /\ ((length (format_serial cfg n) <= int_max_str_digits)%nat ->
        int_of_digits (format_serial cfg n) = inr n).
Proof.
  intros Hrt Hn.
  assert (int (format_serial cfg n) = inr n) as Hint.
  { unfold format_serial.
    destruct (Z.ltb_spec n 0) as [|_]; [lia|].
    replace (Z.abs_N n) with (Z.to_N n) by lia.
    destruct (str_of_N_reads_back rt Hrt (Z.to_N n)) as (Hne & Hdec & Hval).
    rewrite int_decimal.
    + rewrite decimal_number_zeros by done. rewrite Hval. f_equal. lia.
    + destruct (str_of_N (Z.to_N n)); [done|]. by destruct (_ - _)%nat.
    + apply Forall_app. split; [|done]. apply Forall_replicate.
      unfold is_decimal. rewrite (zero_code_value rt Hrt).
      by apply bool_decide_pack. }
  split_and!; [| |done|].
  - unfold format_serial. destruct (Z.ltb_spec n 0) as [|_]; [lia|].
    rewrite length_app, length_replicate. lia.
  - unfold format_serial. destruct (Z.ltb_spec n 0) as [|_]; [lia|].
    replace (Z.abs_N n) with (Z.to_N n) by lia. by eexists.
  - intros Hlen. unfold int_of_digits.
    by rewrite (proj2 (Nat.ltb_ge _ _) Hlen).
Qed.

Lemma format_serial_reads_back_witness :
  (3 <= length (format_serial source_config 7))%nat
  /\ str_of_N 7 `suffix_of` format_serial source_config 7
  /\ int (rt := ascii_runtime NT) (format_serial source_config 7) = inr 7
  /\ ((length (format_serial source_config 7) <= int_max_str_digits)%nat ->
        int_of_digits (rt := ascii_runtime NT) (format_serial source_config 7)
        = inr 7).
Proof.
  refine (format_serial_reads_back (ascii_runtime NT) source_config 7 _ _).
  - apply ascii_runtime_conformant.
  - lia.
Defined.

(** *** Whole runs *)
Section runs.
Context {rt : PyRuntime} (cfg : config).
Implicit Types (fs : folder) (files : list file_info) (listing : list str).

Lemma scan_step_paths fs (acc : list file_info * list event) (x : str) :
  old_path <$> (scan_step cfg fs acc x).1
  = (old_path <$> acc.1) ++ (if kept cfg fs x then [x] else []).
Proof.
  unfold scan_step, kept.
  destruct (fs !! x) as [[| | |]|];
    destruct (is_sequence_file cfg x) as [[[[[|] [n|]] [c|]] e] printed];
    simpl; rewrite ?fmap_app, ?app_nil_r; done.
Qed.


Lemma scan_fold_paths fs listing (acc : list file_info * list event) :
  old_path <$> (foldl (scan_step cfg fs) acc listing).1
  = (old_path <$> acc.1) ++ filter (fun x => kept cfg fs x) listing.
Proof.
  revert acc. induction listing as [|x l IH]; intros acc; simpl.
  - by rewrite app_nil_r.
  - rewrite IH, scan_step_paths, <- app_assoc. f_equal.
    rewrite filter_cons. destruct (kept cfg fs x); simpl; try case_decide; done.
Qed.


(** The names that a run will try to rename. *)
Lemma scan_paths fs listing :
  old_path <$> (scan cfg fs listing).1 = filter (fun x => kept cfg fs x) listing.
Proof. unfold scan. by rewrite scan_fold_paths. Qed.

Lemma assign_final_paths (m : gmap Z Z) files files' :
  assign_final m files = inr files' ->
  old_path <$> files' = old_path <$> files
  /\ Forall (fun f => is_Some (final_serial f)) files'.
Proof.
  revert files'. induction files as [|f files IH]; intros files'; simpl.
  - by intros [= <-].
  - destruct (m !! serial_num f) as [n|]; [|done].
    destruct (assign_final m files) as [e|fs']; [done|].
    intros [= <-]. destruct (IH fs' eq_refl) as [Hp Hf].
    split; [simpl; by f_equal|]. constructor; [by eexists | done].
Qed.

(** The loop changes no entry that is none of its own, unless that entry
    is a dangling link where links are replaced. *)
Lemma rename_all_frame (fuel : nat) files fs fs' evs (p : str) (kp : kind) :
  rename_all cfg fuel fs files = Some (fs', evs) ->
  p ∉ old_path <$> files -> fs !! p = Some kp ->
  kp <> BrokenLink \/ os_path = NT ->
  fs' !! p = Some kp.
Proof.
  revert fs fs' evs. induction files as [|f files IH]; intros fs fs' evs; simpl.
  - by intros [= <- _].
  - intros Hrun Hp Hkp Hsafe. apply not_elem_of_cons in Hp as [Hpf Hp].
    destruct (rename_entry cfg fuel fs f) as [[fs1 ev]|] eqn:Hstep; [|done].
    simpl in Hrun.
    destruct (rename_all cfg fuel fs1 files) as [[fs2 evs2]|] eqn:Hrest; [|done].
    injection Hrun as <- _.
    apply rename_entry_inv in Hstep as (Hmv & _).
    apply (IH fs1 fs2 evs2); [done..| |done].
    by apply (moved_lookup fs fs1 (old_path f)).
Qed.


End runs.





(** X9. A run touches no entry that step 2 does not keep, as long as
    [os.path.exists] reports the entry or the platform is Windows: every
    directory, every file that the classifier rejects and every name that
    the listing does not show is in the folder afterwards exactly as
    before.  (A dangling link is the one entry that [os.rename] may
    replace elsewhere.) *)
Theorem run_leaves_other_entries {rt : PyRuntime} (cfg : config) (fuel : nat)
    (fs fs' : folder) (listing : list str) (log : list event)
    (p : str) (k : kind) :
  main cfg fuel (Some fs) listing = Some (inr (fs', log)) ->
  fs !! p = Some k ->
  kept cfg fs p = false \/ p ∉ listing ->
  k <> BrokenLink \/ os_path = NT ->
  fs' !! p = Some k.
Proof.
  intros Hrun Hp Hnot Hsafe. unfold main in Hrun.
  pose proof (scan_paths cfg fs listing) as Hpaths.
  destruct (scan cfg fs listing) as [[|f0 files0] log0]; [by simplify_eq|].
  set (files := f0 :: files0) in *.
  change (old_path <$> files = filter (fun x => kept cfg fs x) listing) in Hpaths.
  destruct (assign_final _ files) as [e|files'] eqn:Hassign; [done|].
  apply assign_final_paths in Hassign as [Hsame _].
  destruct (rename_all cfg fuel fs files') as [[fs2 evs]|] eqn:Hren; [|done].
  simpl in Hrun. destruct (lookup_all _ _) as [e|final]; [done|].
  injection Hrun as <- _.
  apply (rename_all_frame cfg fuel files' fs fs2 evs p k Hren); [|done..].
  rewrite Hsame, Hpaths, list_elem_of_filter. intros [Hk Hin].
  destruct Hnot as [Hno|Hno]; [|done]. by rewrite Hno in Hk.
Qed.

Lemma run_leaves_other_entries_witness :
  exists fs' log,
    main (rt := ascii_runtime NT) source_config 4 (Some folder_with_directory)
         [lit "1.a.txt"; lit "2.b"]
    = Some (inr (fs', log))
    /\ fs' !! lit "2.b" = Some Directory.
Proof.
  destruct (main (rt := ascii_runtime NT) source_config 4
              (Some folder_with_directory) [lit "1.a.txt"; lit "2.b"])
    as [[e|[fs' log]]|] eqn:Hrun; [by vm_compute in Hrun| |by vm_compute in Hrun].
  exists fs', log. split; [reflexivity|].
  refine (run_leaves_other_entries (rt := ascii_runtime NT) source_config 4
            folder_with_directory fs' [lit "1.a.txt"; lit "2.b"] log
            (lit "2.b") Directory Hrun _ _ _).
  - reflexivity.
  - left. reflexivity.
  - left. discriminate.
Defined.





End ReSerialMore.


(** * Further properties of the timestamp editor *)
Module ReTimeMore.
Import ReTime ReTimeProofs.

Section branches.
Context (h : host).
Implicit Types (w : world) (p : str).

(** How the Windows branch can end: with the three times written and the
    handle closed, or with an error of a platform call before anything
    is written. *)
Lemma windows_branch_outcome p (nc nm na : option Z) w :
  let r := windows_branch h p nc nm na w in
  match r.1 with
  | inr _ =>
      exists t fc fa fm,
        files w !! p = Some (File t true)
        /\ final_time h nc (ctime t) = inr fc
        /\ final_time h na (atime t) = inr fa
        /\ final_time h nm (mtime t) = inr fm
        /\ r.2 = after_set w p {| ctime := fc; atime := fa; mtime := fm |}
                   [CreateFile p; GetFileTime p; SetFileTime p fc fa fm;
                    CloseHandle p]
  | inl e =>
      files r.2 = files w /\ stdout r.2 = stdout w /\ ticks r.2 = ticks w
      /\ (exists msg, e = OSError msg)
      /\ ((calls r.2 = calls w ++ [CreateFile p]
           /\ forall t, files w !! p <> Some (File t true))
          \/ (calls r.2 = calls w ++ [CreateFile p; GetFileTime p]
              /\ exists t msg,
                   files w !! p = Some (File t true) /\ e = OSError msg
                   /\ (final_time h nc (ctime t) = inl msg
                       \/ final_time h na (atime t) = inl msg
                       \/ final_time h nm (mtime t) = inl msg)))
  end.
Proof.
  unfold windows_branch, win32file_CreateFile, win32file_GetFileTime,
    win32file_SetFileTime, handle_close, called, stat, set_times, raise,
    final_time, ts_to_pywintime.
  unfold mbind, M_bind, mret, M_ret. simpl.
  destruct (files w !! p) as [[t [|]|]|] eqn:Hp; simpl; rewrite ?Hp; simpl.
  2-4: by (split_and!; eauto; try (left; split; [done|intros t'; congruence])).
  destruct (truthy nc) as [tc|]; simpl;
    [destruct (fromtimestamp_Time h tc) as [ec|fc] eqn:Ec; simpl|].
  all: try (split_and!; eauto; right; rewrite <- app_assoc; split; [done|];
            exists t, ec; eauto).
  all: destruct (truthy na) as [ta|]; simpl;
    [destruct (fromtimestamp_Time h ta) as [ea|fa] eqn:Ea; simpl|].
  all: try (split_and!; eauto; right; rewrite <- app_assoc; split; [done|];
            exists t, ea; eauto).
  all: destruct (truthy nm) as [tm|]; simpl;
    [destruct (fromtimestamp_Time h tm) as [em|fm] eqn:Em; simpl|].
  all: try (split_and!; eauto; right; rewrite <- app_assoc; split; [done|];
            exists t, em; eauto).
  all: eexists t, _, _, _; split_and!; try done.
  all: unfold after_set; simpl; rewrite (alter_times _ _ t) by done.
  all: by rewrite <- !app_assoc.
Qed.

(** How the other branch can end. *)
Lemma other_branch_outcome p (nc nm na : option Z) w :
  let r := other_branch h p nc nm na w in
  match r.1 with
  | inr _ =>
      exists t, files w !! p = Some (File t true)
                /\ r.2 = after_utime h w p t nc nm na
  | inl e =>
      files r.2 = files w /\ e = OSError access_denied
      /\ (forall t, files w !! p <> Some (File t true))
      /\ calls r.2 = calls w ++ [utime p (utime_access h na w)
                                       (utime_modify h nm na w)]
  end.
Proof.
  destruct (files w !! p) as [[t [|]|]|] eqn:Hp.
  { rewrite (other_branch_run h p nc nm na w t Hp). simpl. eauto. }
  all: unfold other_branch, os_utime, called, stat, set_times, print, time_time,
         raise, utime_access, utime_modify.
  all: unfold mbind, M_bind, mret, M_ret.
  all: destruct (truthy nc) as [tc|]; simpl.
  all: destruct (truthy na) as [ta|]; simpl.
  all: destruct (truthy nm) as [tm|]; simpl.
  all: rewrite Hp; simpl.
  all: split_and!; try done; intros t'; congruence.
Qed.

(** Either branch leaves every other path alone, keeps the target a file
    with the same permission, and changes no file when it raises. *)
Lemma branch_frame p (nc nm na : option Z) w :
  let r := branch h p nc nm na w in
  (forall q, q <> p -> files r.2 !! q = files w !! q)
  /\ (forall e, r.1 = inl e -> files r.2 = files w)
  /\ (forall t wr, files w !! p = Some (File t wr) ->
        exists t', files r.2 !! p = Some (File t' wr)
                   /\ (platform_system h <> lit "Windows" -> ctime t' = ctime t)).
Proof.
  unfold branch. case_bool_decide as Hsys.
  - pose proof (windows_branch_outcome p nc nm na w) as H.
    destruct (windows_branch h p nc nm na w) as [[e|[]] w1]; simpl in *.
    + destruct H as (Hf & _). rewrite Hf. split_and!; [done..|].
      intros t wr Hp. exists t. by split.
    + destruct H as (t & fc & fa & fm & Hp & _ & _ & _ & ->). simpl.
      split_and!; [|done|].
      * intros q Hq. by rewrite lookup_insert_ne.
      * intros t' wr Hp'. rewrite Hp in Hp'. injection Hp' as <- <-.
        eexists. rewrite lookup_insert_eq. by split.
  - pose proof (other_branch_outcome p nc nm na w) as H.
    destruct (other_branch h p nc nm na w) as [[e|[]] w1]; simpl in *.
    + destruct H as (Hf & _). rewrite Hf. split_and!; [done..|].
      intros t wr Hp. exists t. by split.
    + destruct H as (t & Hp & ->). simpl.
      split_and!; [|done|].
      * intros q Hq. by rewrite lookup_insert_ne.
      * intros t' wr Hp'. rewrite Hp in Hp'. injection Hp' as <- <-.
        eexists. rewrite lookup_insert_eq. by split.
Qed.

End branches.

Section calls.
Context (h : host).
Implicit Types (w : world) (p fmt : str) (c m a : option str).

(** The three facts of [branch_frame] for the whole function. *)
Lemma modify_file_times_frame p c m a fmt w :
  let r := modify_file_times h p c m a fmt w in
  (forall q, q <> p -> files r.2 !! q = files w !! q)
  /\ (forall e, r.1 = inl e -> files r.2 = files w)
  /\ (forall t wr, files w !! p = Some (File t wr) ->
        exists t', files r.2 !! p = Some (File t' wr)
                   /\ (platform_system h <> lit "Windows" -> ctime t' = ctime t)).
Proof.
  intros r. subst r. rewrite modify_file_times_run.
  assert (forall w0 : world, w0 = w ->
            (forall q, q <> p -> files w0 !! q = files w !! q)
            /\ (forall e : exn, True -> files w0 = files w)
            /\ (forall t wr, files w !! p = Some (File t wr) ->
                  exists t', files w0 !! p = Some (File t' wr)
                             /\ (platform_system h <> lit "Windows" ->
                                 ctime t' = ctime t))) as Hsame.
  { intros w0 ->. split_and!; [done..|]. intros t wr Hp. exists t. by split. }
  destruct (files w !! p) as [[t0 wr0|]|] eqn:Hp.
  2-3: destruct (Hsame w eq_refl) as (H1 & H2 & H3); simpl; split_and!; eauto.
  destruct (parsed h c fmt) as [e|nc];
    [destruct (Hsame w eq_refl) as (H1 & H2 & H3); simpl; split_and!; eauto|].
  destruct (parsed h m fmt) as [e|nm];
    [destruct (Hsame w eq_refl) as (H1 & H2 & H3); simpl; split_and!; eauto|].
  destruct (parsed h a fmt) as [e|na];
    [destruct (Hsame w eq_refl) as (H1 & H2 & H3); simpl; split_and!; eauto|].
  rewrite apply_and_report_run.
  pose proof (branch_frame h p nc nm na w) as (H1 & H2 & H3).
  destruct (branch h p nc nm na w) as [[e|[]] w1]; simpl in *.
  - split_and!; [done|eauto|]. intros t wr [= <- <-]. by apply H3.
  - split_and!; [done|done|]. intros t wr [= <- <-]. by apply H3.
Qed.

End calls.

(** X12. The path is checked before anything else: on a path that does
    not exist the call raises [FileNotFoundError], on a directory
    [IsADirectoryError], each with the path in its message and with the
    world untouched, whatever the time strings are, well formed or not. *)
Theorem path_checks_come_first (h : host) (p : str) (c m a : option str)
    (fmt : str) (w : world) :
  (files w !! p = None ->
     modify_file_times h p c m a fmt w
     = (inl (FileNotFoundError (not_found ++ p)), w))
  /\ (files w !! p = Some Dir ->
        modify_file_times h p c m a fmt w
        = (inl (IsADirectoryError (not_file ++ p)), w)).
Proof. rewrite modify_file_times_run. split; by intros ->. Qed.

Lemma path_checks_come_first_witness :
  modify_file_times utc_windows (lit "Videos") (Some (lit "yesterday")) None None
                    default_format locked_world
  = (inl (IsADirectoryError (not_file ++ lit "Videos")), locked_world).
Proof.
  refine (proj2 (path_checks_come_first utc_windows (lit "Videos")
                   (Some (lit "yesterday")) None None default_format
                   locked_world) _).
  reflexivity.
Defined.



(** X14. A call changes nothing but the timestamps of its target: every
    other path keeps its entry, and the target stays a file with the same
    permission. *)
Theorem only_target_times_change (h : host) (p : str) (c m a : option str)
    (fmt : str) (w : world) :
  let w' := (modify_file_times h p c m a fmt w).2 in
  (forall q, q <> p -> files w' !! q = files w !! q)
  /\ (forall t wr, files w !! p = Some (File t wr) ->
        exists t', files w' !! p = Some (File t' wr)).
Proof.
  intros w'. subst w'.
  destruct (modify_file_times_frame h p c m a fmt w) as (H1 & _ & H3).
  split; [done|]. intros t wr Hp. destruct (H3 t wr Hp) as (t' & Ht' & _). eauto.
Qed.

(** X15. Off Windows no call changes the creation time of its target,
    whatever creation time is passed. *)
Theorem creation_time_kept_off_windows (h : host) (p : str) (c m a : option str)
    (fmt : str) (w : world) (t : file_times) (wr : bool) :
  platform_system h <> lit "Windows" ->
  files w !! p = Some (File t wr) ->
  exists t', files (modify_file_times h p c m a fmt w).2 !! p = Some (File t' wr)
             /\ ctime t' = ctime t.
Proof.
  intros Hsys Hp.
  destruct (modify_file_times_frame h p c m a fmt w) as (_ & _ & H3).
  destruct (H3 t wr Hp) as (t' & Ht' & Hc). eauto.
Qed.

Lemma creation_time_kept_off_windows_witness :
  exists t',
    files (modify_file_times utc_linux sample_path (Some example_str)
             (Some example_str) None default_format sample_world).2 !! sample_path
    = Some (File t' true)
    /\ ctime t' = 100.
Proof.
  refine (creation_time_kept_off_windows utc_linux sample_path (Some example_str)
            (Some example_str) None default_format sample_world sample_times
            true _ _).
  - discriminate.
  - reflexivity.
Defined.





Lemma windows_branch_unwritable (h : host) (p : str) (nc nm na : option Z)
    (w : world) (t : file_times) :
  files w !! p = Some (File t false) ->
  windows_branch h p nc nm na w
  = (inl (OSError access_denied),
     {| files := files w; ticks := ticks w; stdout := stdout w;
        calls := calls w ++ [CreateFile p] |}).
Proof.
  intros Hp. unfold windows_branch, win32file_CreateFile, called, stat, raise.
  unfold mbind, M_bind, mret, M_ret. simpl. by rewrite Hp.
Qed.

Lemma other_branch_unwritable (h : host) (p : str) (nc nm na : option Z)
    (w : world) (t : file_times) :
  files w !! p = Some (File t false) ->
  let r := other_branch h p nc nm na w in
  r.1 = inl (OSError access_denied) /\ files r.2 = files w
  /\ (Success ∈ stdout r.2 -> Success ∈ stdout w).
Proof.
  intros Hp r. subst r.
  pose proof (other_branch_outcome h p nc nm na w) as H.
  pose proof (other_branch_stdout h p nc nm na w) as Hout.
  destruct (other_branch h p nc nm na w) as [[e|[]] w1]; simpl in *.
  - destruct H as (Hf & -> & _). split_and!; [done..|].
    rewrite Hout, elem_of_app. intros [?|Hin]; [done|].
    destruct (truthy nc); [|by apply elem_of_nil in Hin].
    apply list_elem_of_singleton in Hin. discriminate.
  - destruct H as (t' & Hp' & _). congruence.
Qed.

(** X18. On a file that cannot be opened for writing, a call whose
    strings parse raises [RuntimeError] with the text of the platform
    error behind the fixed prefix; no timestamp changes and nothing of
    the report is printed.  On Windows the only platform call made is the
    attempt to open the file. *)
Theorem unwritable_file_raises (h : host) (p : str) (c m a : option str)
    (fmt : str) (w : world) (t : file_times) (nc nm na : option Z) :
  files w !! p = Some (File t false) ->
  parsed h c fmt = inr nc -> parsed h m fmt = inr nm -> parsed h a fmt = inr na ->
  let r := modify_file_times h p c m a fmt w in
  r.1 = inl (RuntimeError (failed ++ access_denied))
  /\ files r.2 = files w
  /\ (Success ∈ stdout r.2 -> Success ∈ stdout w)
  /\ (platform_system h = lit "Windows" -> calls r.2 = calls w ++ [CreateFile p]).
Proof.
  intros Hp Hc Hm Ha r. subst r.
  rewrite modify_file_times_run, Hp, Hc, Hm, Ha, apply_and_report_run.
  unfold branch. case_bool_decide as Hsys.
  - rewrite (windows_branch_unwritable h p nc nm na w t Hp). by simpl.
  - pose proof (other_branch_unwritable h p nc nm na w t Hp) as H.
    destruct (other_branch h p nc nm na w) as [[e|[]] w1]; simpl in *.
    + destruct H as ([= ->] & Hf & Hout). by split_and!.
    + by destruct H as ([=] & _).
Qed.

Lemma unwritable_file_raises_witness :
  let r := modify_file_times utc_windows (lit "Ring.mp4") (Some example_str) None
             None default_format locked_world in
  r.1 = inl (RuntimeError (failed ++ access_denied))
  /\ files r.2 = files locked_world
  /\ calls r.2 = [CreateFile (lit "Ring.mp4")].
Proof.
  intros r.
  destruct (unwritable_file_raises utc_windows (lit "Ring.mp4") (Some example_str)
              None None default_format locked_world
              {| ctime := 100; atime := 200; mtime := 300 |}
              (Some 1672603200) None None)
    as (H1 & H2 & _ & H4); try reflexivity.
  split; [exact H1|]. split; [exact H2|]. apply H4. reflexivity.
Defined.

(** The Windows branch when a conversion fails: the error of the first
    one that fails, in the order creation, access, modification. *)
Lemma windows_branch_failure (h : host) (p : str) (nc nm na : option Z)
    (w : world) (t : file_times) (msg : str) :
  files w !! p = Some (File t true) ->
  first_failure (final_time h nc (ctime t)) (final_time h na (atime t))
                (final_time h nm (mtime t)) = Some msg ->
  let r := windows_branch h p nc nm na w in
  r.1 = inl (OSError msg) /\ files r.2 = files w
  /\ calls r.2 = calls w ++ [CreateFile p; GetFileTime p].
Proof.
  intros Hp Hfail.
  unfold windows_branch, win32file_CreateFile, win32file_GetFileTime,
    win32file_SetFileTime, handle_close, called, stat, set_times,
    ts_to_pywintime, raise.
  unfold mbind, M_bind, mret, M_ret. simpl. rewrite Hp. simpl. rewrite Hp. simpl.
  unfold first_failure, final_time in Hfail.
  destruct (truthy nc) as [tc|]; simpl in *;
    [destruct (fromtimestamp_Time h tc) as [ec|fc]; simpl in *|].
  all: try (injection Hfail as <-; split_and!; [done..|by rewrite <- app_assoc]).
  all: destruct (truthy na) as [ta|]; simpl in *;
    [destruct (fromtimestamp_Time h ta) as [ea|fa]; simpl in *|].
  all: try (injection Hfail as <-; split_and!; [done..|by rewrite <- app_assoc]).
  all: destruct (truthy nm) as [tm|]; simpl in *;
    [destruct (fromtimestamp_Time h tm) as [em|fm]; simpl in *|].
  all: try (injection Hfail as <-; split_and!; [done..|by rewrite <- app_assoc]).
  all: done.
Qed.

(** X19. On Windows, when a timestamp that was passed cannot be converted
    for the platform, the call raises [RuntimeError] with the text of
    that error, the error of the first conversion that fails in the order
    of the code (creation, access, modification); the file has been
    opened and its times read, but nothing is written and the handle is
    not closed. *)
Theorem failed_conversion_leaves_handle_open (h : host) (p : str)
    (c m a : option str) (fmt : str) (w : world) (t : file_times)
    (nc nm na : option Z) (msg : str) :
  platform_system h = lit "Windows" ->
  files w !! p = Some (File t true) ->
  parsed h c fmt = inr nc -> parsed h m fmt = inr nm -> parsed h a fmt = inr na ->
  first_failure (final_time h nc (ctime t)) (final_time h na (atime t))
                (final_time h nm (mtime t)) = Some msg ->
  let r := modify_file_times h p c m a fmt w in
  r.1 = inl (RuntimeError (failed ++ msg))
  /\ files r.2 = files w
  /\ calls r.2 = calls w ++ [CreateFile p; GetFileTime p].
Proof.
  intros Hsys Hp Hc Hm Ha Hfail r. subst r.
  rewrite modify_file_times_run, Hp, Hc, Hm, Ha, apply_and_report_run.
  unfold branch. rewrite bool_decide_eq_true_2 by done.
  pose proof (windows_branch_failure h p nc nm na w t msg Hp Hfail) as H.
  destruct (windows_branch h p nc nm na w) as [[e|[]] w1]; simpl in *.
  - destruct H as ([= ->] & Hf & Hcalls). by split_and!.
  - by destruct H as ([=] & _).
Qed.

Lemma failed_conversion_leaves_handle_open_witness :
  let r := modify_file_times utc_windows_first_day sample_path (Some noon_str)
             None None default_format sample_world in
  r.1 = inl (RuntimeError (failed ++ lit "[Errno 22] Invalid argument"))
  /\ files r.2 = files sample_world
  /\ calls r.2 = [CreateFile sample_path; GetFileTime sample_path].
Proof.
  refine (failed_conversion_leaves_handle_open utc_windows_first_day sample_path
            (Some noon_str) None None default_format sample_world sample_times
            (Some 43200) None None (lit "[Errno 22] Invalid argument")
            _ _ _ _ _ _); reflexivity.
Defined.

End ReTimeMore.
